(** * Attempt timing and submission protocol of the quiz front end

    A shallow embedding of the two React components that drive a timed
    quiz attempt:

    - [QuizRunner] (the attempt controller): [startQuiz], [handleAnswer],
      [handleSubmit], [handleTimeUp] and the part of the render function
      that gates the submit button and mounts the timer;
    - [Timer] (the deadline timer): the body of its [useEffect], its
      cleanup function and the two callbacks it hands to [setTimeout] and
      [setInterval].

    Modelling conventions.

    - JavaScript numbers are integers ([Z]) extended with [NaN]; every
      quantity the components compute (epoch milliseconds, minutes,
      option indices) is integer valued and far inside the range where
      double arithmetic is exact.  Infinities and fractions are not
      represented.
    - Values that come out of JSON are scalars of type [value].
    - A plain JavaScript object used as a dictionary is an association
      list kept in the order in which [Object.entries] enumerates it
      (array-index keys ascending, then the other keys in insertion
      order).  Properties inherited from [Object.prototype] are not
      represented, apart from the setter of [__proto__] that an
      assignment to that key runs.
    - What the runtime provides and the repository does not define
      (date parsing and printing, the conversion of strings to numbers)
      is an interface, the class [Platform]; the theorems hold for every
      instance, and one instance covering ISO-8601 UTC stamps is given to
      evaluate examples.
    - Component state is a record, a handler is a computation in a small
      state-and-exception monad that also logs the calls made to the
      outside (network, dialogs, navigation).  [async] handlers are cut
      at their [await]: the prefix up to the request, and the
      continuation that runs when the request settles.
    - Timers are modelled by the table of pending timeouts and intervals
      of the event loop: a callback may run late, never before the delay
      the runtime keeps for it, which is a signed 32-bit number of
      milliseconds.

    Around the two components, the development also covers what they
    rest on: [utils/auth] (the session in [localStorage]), the two
    interceptors of [utils/api], and [ProtectedRoute] with the route
    table of [App], which decide who reaches the quiz. *)

From Stdlib Require Import ZArith String Ascii List Bool DecimalString Decimal
  DecimalNat Lia.
Import ListNotations.

Local Open Scope string_scope.
Local Open Scope Z_scope.

(* ================================================================== *)
(** * JavaScript values *)
(* ================================================================== *)

Module Js.

(** Numbers. *)
Inductive num : Type :=
| Fin (z : Z)
| NaN.

Definition num_add (a b : num) : num :=
  match a, b with
  | Fin x, Fin y => Fin (x + y)
  | _, _ => NaN
  end.

Definition num_sub (a b : num) : num :=
  match a, b with
  | Fin x, Fin y => Fin (x - y)
  | _, _ => NaN
  end.

Definition num_mul (a b : num) : num :=
  match a, b with
  | Fin x, Fin y => Fin (x * y)
  | _, _ => NaN
  end.

(** [Math.max]: [NaN] as soon as one argument is [NaN]. *)
Definition Math_max (a b : num) : num :=
  match a, b with
  | Fin x, Fin y => Fin (Z.max x y)
  | _, _ => NaN
  end.

(** [Math.floor (a / d)] for a positive integer constant [d]. *)
Definition floor_div (a : num) (d : Z) : num :=
  match a with
  | Fin x => Fin (x / d)
  | NaN => NaN
  end.

(** [a <= b] and [a > b]: every comparison with [NaN] is false. *)
Definition num_leb (a b : num) : bool :=
  match a, b with
  | Fin x, Fin y => x <=? y
  | _, _ => false
  end.

Definition num_gtb (a b : num) : bool :=
  match a, b with
  | Fin x, Fin y => y <? x
  | _, _ => false
  end.

Definition isNaN (a : num) : bool :=
  match a with
  | NaN => true
  | Fin _ => false
  end.

(** Scalars. *)
Inductive value : Type :=
| VUndefined
| VNull
| VBool (b : bool)
| VNum (n : num)
| VStr (s : string).

(** [v === null] and [v !== null]. *)
Definition is_null (v : value) : bool :=
  match v with
  | VNull => true
  | _ => false
  end.

(** ToBoolean. *)
Definition truthy (v : value) : bool :=
  match v with
  | VUndefined | VNull => false
  | VBool b => b
  | VNum (Fin z) => negb (z =? 0)
  | VNum NaN => false
  | VStr s => negb (String.eqb s "")
  end.

(** [a || b] and [a ?? b]. *)
Definition or_else (a b : value) : value :=
  if truthy a then a else b.

Definition nullish (a b : value) : value :=
  match a with
  | VUndefined | VNull => b
  | _ => a
  end.

Definition string_of_Z (z : Z) : string :=
  NilZero.string_of_int (Z.to_int z).

(** ToString of a scalar, which is also its property key. *)
Definition ToPropertyKey (v : value) : string :=
  match v with
  | VUndefined => "undefined"
  | VNull => "null"
  | VBool true => "true"
  | VBool false => "false"
  | VNum (Fin z) => string_of_Z z
  | VNum NaN => "NaN"
  | VStr s => s
  end.

(** [s.endsWith(suffix)]. *)
Fixpoint endsWith (s suffix : string) : bool :=
  if String.eqb s suffix then true
  else match s with
       | EmptyString => false
       | String _ s' => endsWith s' suffix
       end.

(** The runtime services the components call. *)
Class Platform : Type := {
  (** time value of [new Date(s)] for a string [s]; [NaN] when [s] is
      not a date *)
  Date_parse : string -> num;
  (** [new Date(t).toISOString()] for a valid time value [t] *)
  Date_toISOString : Z -> string;
  (** [Number(s)] for a string [s] *)
  StringToNumber : string -> num
}.

(** The largest time value of a [Date]: 8.64e15 milliseconds. *)
Definition max_time : Z := 8640000000000000.

Definition valid_time (z : Z) : Prop := - max_time <= z <= max_time.

(** TimeClip: the time value held by [new Date(n)] for a number [n]. *)
Definition TimeClip (n : num) : num :=
  match n with
  | Fin z => if (- max_time <=? z) && (z <=? max_time) then Fin z else NaN
  | NaN => NaN
  end.

Section WithPlatform.
Context {P : Platform}.

(** [Number(v)]. *)
Definition Number (v : value) : num :=
  match v with
  | VUndefined => NaN
  | VNull => Fin 0
  | VBool true => Fin 1
  | VBool false => Fin 0
  | VNum n => n
  | VStr s => StringToNumber s
  end.

(** Time value of [new Date(v)] for a scalar [v]. *)
Definition Date_of_value (v : value) : num :=
  match v with
  | VStr s => Date_parse s
  | VUndefined => NaN
  | _ => TimeClip (Number v)
  end.

End WithPlatform.

(** ** Objects used as dictionaries *)

Definition object : Type := list (string * value).

(** An array index is the canonical decimal form of an integer below
    [2^32 - 1]; such keys are enumerated first, in ascending order. *)
Definition array_index (k : string) : option N :=
  match NilEmpty.uint_of_string k with
  | Some u =>
      let n := N.of_uint u in
      if String.eqb (NilZero.string_of_uint (N.to_uint n)) k
         && (n <? 4294967295)%N
      then Some n else None
  | None => None
  end.

Fixpoint obj_get (k : string) (o : object) : option value :=
  match o with
  | [] => None
  | (k', v) :: o' => if String.eqb k k' then Some v else obj_get k o'
  end.

(** [o[k]]: a missing property reads as [undefined]. *)
Definition obj_read (k : string) (o : object) : value :=
  match obj_get k o with
  | Some v => v
  | None => VUndefined
  end.

Definition obj_has (k : string) (o : object) : bool :=
  match obj_get k o with
  | Some _ => true
  | None => false
  end.

(** Overwriting an existing property keeps its place. *)
Fixpoint obj_update (k : string) (v : value) (o : object) : object :=
  match o with
  | [] => []
  | (k', v') :: o' =>
      if String.eqb k k' then (k, v) :: o'
      else (k', v') :: obj_update k v o'
  end.

(** A new array-index key goes before the first key that is not an
    array index or is a larger one. *)
Fixpoint obj_insert_index (n : N) (k : string) (v : value) (o : object)
  : object :=
  match o with
  | [] => [(k, v)]
  | (k', v') :: o' =>
      match array_index k' with
      | Some m =>
          if (n <? m)%N then (k, v) :: (k', v') :: o'
          else (k', v') :: obj_insert_index n k v o'
      | None => (k, v) :: (k', v') :: o'
      end
  end.

(** [o[k] = v]. *)
Definition obj_set (k : string) (v : value) (o : object) : object :=
  if obj_has k o then obj_update k v o
  else match array_index k with
       | Some n => obj_insert_index n k v o
       | None => (o ++ [(k, v)])%list
       end.

(** [Object.entries(o)] and [Object.keys(o)]. *)
Definition Object_entries (o : object) : list (string * value) := o.

Definition Object_keys (o : object) : list string := map fst o.

(** ** Completions: a statement ends normally or throws *)

Inductive exn : Type :=
| JsError (message : string)
    (** [new Error(message)], or a TypeError or RangeError raised by the
        runtime: no [response] field *)
| AxiosError (detail : option string)
    (** a rejected request; [detail] is [err.response?.data?.detail]
        when it is a string *).

Inductive completion (A : Type) : Type :=
| Normal (a : A)
| Throw (e : exn).

Arguments Normal {A} a.
Arguments Throw {A} e.

End Js.

(* ================================================================== *)
(** * Timer: the deadline timer component *)
(* ================================================================== *)

Module Timer.
Import Js.

(** What the browser keeps for one armed timer.  [setTimeout] and
    [setInterval] draw their identifiers from one pool, and
    [clearTimeout] and [clearInterval] clear either kind. *)
Inductive kind : Type :=
| Timeout
    (** the callback of line 27: [setTimeLeft(0)], clear the interval,
        [onTimeUp()] *)
| Interval (endTime : string)
    (** the callback of line 34, with the [endTime] its closure holds *).

Record timer : Type := {
  id : positive;
  due : Z;
  what : kind
}.

(** What the outside observes of the component. *)
Inductive obs : Type :=
| Expired (at_ms : Z)      (** [onTimeUp()] was called *)
| DisplayTick (at_ms : Z)  (** the interval callback updated the display *).

Record world : Type := {
  clock : Z;                     (** [Date.now()] *)
  next_id : positive;            (** next timer identifier *)
  pending : list timer;          (** armed timers *)
  timeLeft : num;                (** [useState(0)] *)
  timeoutRef : option positive;  (** [useRef(null)] *)
  intervalRef : option positive; (** [useRef(null)] *)
  log : list obs                 (** newest first *)
}.

Definition set_pending (l : list timer) (w : world) : world :=
  {| clock := clock w; next_id := next_id w; pending := l;
     timeLeft := timeLeft w; timeoutRef := timeoutRef w;
     intervalRef := intervalRef w; log := log w |}.

Definition setTimeLeft (n : num) (w : world) : world :=
  {| clock := clock w; next_id := next_id w; pending := pending w;
     timeLeft := n; timeoutRef := timeoutRef w;
     intervalRef := intervalRef w; log := log w |}.

Definition set_timeoutRef (r : option positive) (w : world) : world :=
  {| clock := clock w; next_id := next_id w; pending := pending w;
     timeLeft := timeLeft w; timeoutRef := r;
     intervalRef := intervalRef w; log := log w |}.

Definition set_intervalRef (r : option positive) (w : world) : world :=
  {| clock := clock w; next_id := next_id w; pending := pending w;
     timeLeft := timeLeft w; timeoutRef := timeoutRef w;
     intervalRef := r; log := log w |}.

Definition observe (o : obs) (w : world) : world :=
  {| clock := clock w; next_id := next_id w; pending := pending w;
     timeLeft := timeLeft w; timeoutRef := timeoutRef w;
     intervalRef := intervalRef w; log := o :: log w |}.

Definition advance (d : Z) (w : world) : world :=
  {| clock := clock w + Z.max 0 d; next_id := next_id w;
     pending := pending w; timeLeft := timeLeft w;
     timeoutRef := timeoutRef w; intervalRef := intervalRef w;
     log := log w |}.

(** [clearTimeout(i)] and [clearInterval(i)]. *)
Definition clearTimer (i : positive) (w : world) : world :=
  set_pending (filter (fun t => negb (Pos.eqb (id t) i)) (pending w)) w.

(** [if (ref.current) clearTimer(ref.current)]: an identifier is a
    positive integer, so the test is on the reference being set. *)
Definition clear_ref (r : option positive) (w : world) : world :=
  match r with
  | Some i => clearTimer i w
  | None => w
  end.

(** The runtime keeps the delay of a timer in a signed 32-bit integer.
    A delay above [max_delay] (about 24.8 days) does not fit: the
    timer is then due at once, and its callback may run on the next turn
    of the event loop. *)
Definition max_delay : Z := 2147483647.

Definition runtime_delay (delay : Z) : Z :=
  if delay <=? max_delay then delay else 0.

(** [setTimeout(cb, delay)] and [setInterval(cb, period)]: the timer is
    due after the delay the runtime keeps for it. *)
Definition arm (k : kind) (delay : Z) (w : world) : positive * world :=
  (next_id w,
   {| clock := clock w; next_id := Pos.succ (next_id w);
      pending := (pending w ++ [{| id := next_id w;
                                   due := clock w + runtime_delay delay;
                                   what := k |}])%list;
      timeLeft := timeLeft w; timeoutRef := timeoutRef w;
      intervalRef := intervalRef w; log := log w |}).

Section WithPlatform.
Context {P : Platform}.

(** Lines 14-19. *)
Definition calculateTimeLeft (endTime : string) (w : world) : num :=
  let now := Fin (clock w) in
  let endTimeStr := if endsWith endTime "Z" then endTime
                    else endTime ++ "Z" in
  let end_ := Date_parse endTimeStr in
  Math_max (Fin 0) (num_sub end_ now).

(** Lines 41-44: the cleanup function. *)
Definition cleanup (w : world) : world :=
  let w := clear_ref (intervalRef w) w in
  clear_ref (timeoutRef w) w.

(** Lines 9-38: the body of the effect. *)
Definition effect (endTime : string) (w : world) : world :=
  let w := clear_ref (intervalRef w) w in
  let w := clear_ref (timeoutRef w) w in
  let initialTimeLeft := calculateTimeLeft endTime w in
  let w := setTimeLeft (floor_div initialTimeLeft 1000) w in
  if num_gtb initialTimeLeft (Fin 0) then
    let delay := match initialTimeLeft with Fin ms => ms | NaN => 0 end in
    let (tid, w) := arm Timeout delay w in
    let w := set_timeoutRef (Some tid) w in
    let (iid, w) := arm (Interval endTime) 1000 w in
    set_intervalRef (Some iid) w
  else w.

(** Lines 27-31: the callback of the timeout. *)
Definition on_timeout (w : world) : world :=
  let w := setTimeLeft (Fin 0) w in
  let w := clear_ref (intervalRef w) w in
  observe (Expired (clock w)) w.

(** Lines 34-37: the callback of the interval. *)
Definition on_interval (endTime : string) (w : world) : world :=
  let remaining := calculateTimeLeft endTime w in
  let w := setTimeLeft (floor_div remaining 1000) w in
  observe (DisplayTick (clock w)) w.

Fixpoint find_timer (i : positive) (l : list timer) : option timer :=
  match l with
  | [] => None
  | t :: l' => if Pos.eqb (id t) i then Some t else find_timer i l'
  end.

(** The event loop runs the callback of an armed timer that is due: a
    timeout is spent, an interval is armed again one period later. *)
Definition fire (i : positive) (w : world) : world :=
  match find_timer i (pending w) with
  | Some t =>
      if due t <=? clock w then
        match what t with
        | Timeout => on_timeout (clearTimer i w)
        | Interval endTime =>
            on_interval endTime
              (set_pending
                 (map (fun t' => if Pos.eqb (id t') i
                                 then {| id := i; due := clock w + 1000;
                                         what := what t' |}
                                 else t') (pending w)) w)
        end
      else w
  | None => w
  end.

(** What can happen to a mounted timer. *)
Inductive event : Type :=
| Advance (d : Z)            (** time passes *)
| Fire (i : positive)        (** the event loop picks timer [i] *)
| Rerun (endTime : string)   (** a dependency changed: cleanup, effect *)
| Unmount                    (** the component goes away: cleanup *).

Definition step (w : world) (e : event) : world :=
  match e with
  | Advance d => advance d w
  | Fire i => fire i w
  | Rerun endTime => effect endTime (cleanup w)
  | Unmount => cleanup w
  end.

Definition run (sch : list event) (w : world) : world :=
  fold_left step sch w.

(** Events of the runtime alone: the component is neither re-rendered
    with new props nor unmounted. *)
Definition runtime_event (e : event) : bool :=
  match e with
  | Advance _ | Fire _ => true
  | Rerun _ | Unmount => false
  end.

(** A freshly mounted component at time [now]. *)
Definition fresh (now : Z) (first_id : positive) : world :=
  {| clock := now; next_id := first_id; pending := [];
     timeLeft := Fin 0; timeoutRef := None; intervalRef := None;
     log := [] |}.

(** Mounting [<Timer endTime=... onTimeUp=... />] at time [now]: the
    first run of the effect on a fresh component. *)
Definition start (endTime : string) (now : Z) (first_id : positive)
  : world :=
  effect endTime (fresh now first_id).

(** The same as a completion: neither the render function nor the
    effect contains a [throw] or calls anything that throws on a string
    prop, so mounting always completes normally. *)
Definition mount (endTime : string) (now : Z) (first_id : positive)
  : completion world :=
  Normal (start endTime now first_id).

(** The time value the timer reads from its [endTime] prop (lines
    16-17). *)
Definition deadline (endTime : string) : num :=
  Date_parse (if endsWith endTime "Z" then endTime else endTime ++ "Z").

End WithPlatform.

(** The times at which [onTimeUp] was called, and the times of the
    periodic display updates, newest first. *)
Definition expirations (w : world) : list Z :=
  flat_map (fun o => match o with Expired t => [t] | _ => [] end) (log w).

Definition updates (w : world) : list Z :=
  flat_map (fun o => match o with DisplayTick t => [t] | _ => [] end)
           (log w).

(** The two shapes a timer started before its deadline goes through:
    its timeout is pending and due at [D], or it has run at some time
    not before [D]. *)
Definition armed (endTime : string) (D : Z) (id0 : positive) (w : world)
  : Prop :=
  exists next ticks,
    pending w = [ {| id := id0; due := D; what := Timeout |};
                  {| id := Pos.succ id0; due := next;
                     what := Interval endTime |} ]
    /\ timeoutRef w = Some id0 /\ intervalRef w = Some (Pos.succ id0)
    /\ log w = map DisplayTick ticks
    /\ next_id w = Pos.succ (Pos.succ id0).

Definition spent (D : Z) (id0 : positive) (w : world) : Prop :=
  exists t ticks,
    D <= t /\ t <= clock w
    /\ log w = Expired t :: map DisplayTick ticks
    /\ pending w = []
    /\ next_id w = Pos.succ (Pos.succ id0).

(** The display of a timer started before its deadline [D], whose
    timeout is due at [d]: while the timeout is pending it holds the
    whole seconds that were left at some instant [c] not later than now,
    and once the timeout has run it holds zero. *)
Definition shows (endTime : string) (D d : Z) (id0 : positive) (c : Z)
    (w : world) : Prop :=
  c <= clock w
  /\ ((armed endTime d id0 w
       /\ timeLeft w = Fin (Z.max 0 (D - c) / 1000))
      \/ (spent d id0 w /\ timeLeft w = Fin 0)).

(** ** The display, lines 47-61 *)

(** [a % d] for a positive integer constant [d]: the sign of the
    dividend. *)
Definition num_rem (a : num) (d : Z) : num :=
  match a with
  | Fin x => Fin (Z.rem x d)
  | NaN => NaN
  end.

(** [a === b] and [a < b] on numbers. *)
Definition num_eqb (a b : num) : bool :=
  match a, b with
  | Fin x, Fin y => x =? y
  | _, _ => false
  end.

Definition num_ltb (a b : num) : bool :=
  match a, b with
  | Fin x, Fin y => x <? y
  | _, _ => false
  end.

(** [String(n)]. *)
Definition String_of_num (n : num) : string :=
  match n with
  | Fin z => string_of_Z z
  | NaN => "NaN"
  end.

(** [s.padStart(width, "0")]. *)
Definition padStart0 (s : string) (width : nat) : string :=
  string_of_list_ascii (repeat "0"%char (width - String.length s)) ++ s.

(** Lines 48-49. *)
Definition minutes (w : world) : num := floor_div (timeLeft w) 60.

Definition seconds (w : world) : num := num_rem (timeLeft w) 60.

(** Lines 52-57. *)
Definition colorClass (w : world) : string :=
  if num_eqb (minutes w) (Fin 0) && num_leb (seconds w) (Fin 30)
  then "bg-red-100 text-red-800 animate-pulse"
  else if num_ltb (minutes w) (Fin 2)
       then "bg-yellow-100 text-yellow-800"
       else "bg-green-100 text-green-800".

(** Line 61: the text after the clock sign. *)
Definition clock_text (w : world) : string :=
  padStart0 (String_of_num (minutes w)) 2 ++ ":"
  ++ padStart0 (String_of_num (seconds w)) 2.

End Timer.

(* ================================================================== *)
(** * QuizRunner: the attempt controller component *)
(* ================================================================== *)

Module QuizRunner.
Import Js.

(** ** Data exchanged with the server *)

Record question : Type := {
  q_id : value;
  q_text : string;
  q_options : list string
}.

(** [questions] is [None] when the field is not an array. *)
Record quiz_data : Type := {
  title : string;
  description : string;
  quiz_time_limit_minutes : value;
  questions : option (list question)
}.

Record start_data : Type := {
  attempt_id : value;
  start_time : value;
  time_limit_minutes : value
}.

Record result_data : Type := {
  result_id : value
}.

(** How a request settles: rejected, or resolved with a response whose
    [data] may be missing. *)
Inductive response (D : Type) : Type :=
| Rejected (detail : option string)
| Resolved (data : option D).

Arguments Rejected {D} detail.
Arguments Resolved {D} data.

(** ** Component state: the eight [useState] cells *)

Record state : Type := {
  quiz : option quiz_data;
  attemptId : value;
  endTime : option string;
  currentQuestion : nat;
  answers : object;
  loading : bool;
  submitting : bool;
  error : string
}.

(** Lines 12-19. *)
Definition initial_state : state :=
  {| quiz := None; attemptId := VNull; endTime := None;
     currentQuestion := 0%nat; answers := []; loading := true;
     submitting := false; error := "" |}.

(** ** Calls to the outside *)

Inductive call : Type :=
| PostStart                      (** [api.post(`/quizzes/${id}/start`)] *)
| GetQuiz                        (** [api.get(`/quizzes/${id}`)] *)
| PostSubmit (attempt : value) (payload : list (string * value))
                                 (** [api.post(`/quizzes/${id}/submit`, ...)] *)
| Confirm                        (** [confirm(...)] *)
| Alert                          (** [alert(...)] *)
| StoreResult                    (** [sessionStorage.setItem(...)] *)
| Navigate (result : value)      (** [navigate(`/results/${...}`)] *).

Definition is_submit (c : call) : bool :=
  match c with
  | PostSubmit _ _ => true
  | _ => false
  end.

Definition is_start (c : call) : bool :=
  match c with
  | PostStart => true
  | _ => false
  end.

(** The component's state together with the calls made so far, oldest
    first. *)
Record world : Type := {
  st : state;
  calls : list call
}.

(** ** The monad of handlers *)

Definition M (A : Type) : Type := world -> completion A * world.

Definition ret {A} (a : A) : M A := fun w => (Normal a, w).

Definition bind {A B} (m : M A) (k : A -> M B) : M B :=
  fun w =>
    match m w with
    | (Normal a, w') => k a w'
    | (Throw e, w') => (Throw e, w')
    end.

Definition throw {A} (e : exn) : M A := fun w => (Throw e, w).

Definition try_catch {A} (m : M A) (h : exn -> M A) : M A :=
  fun w =>
    match m w with
    | (Normal a, w') => (Normal a, w')
    | (Throw e, w') => h e w'
    end.

Definition finally {A} (m : M A) (f : M unit) : M A :=
  fun w =>
    match m w with
    | (r, w') =>
        match f w' with
        | (Normal _, w'') => (r, w'')
        | (Throw e, w'') => (Throw e, w'')
        end
    end.

(** A step that touches neither the state nor the outside. *)
Definition lift {A} (c : completion A) : M A := fun w => (c, w).

Definition get : M state := fun w => (Normal (st w), w).

Definition modify (f : state -> state) : M unit :=
  fun w => (Normal tt, {| st := f (st w); calls := calls w |}).

Definition perform (c : call) : M unit :=
  fun w => (Normal tt, {| st := st w; calls := (calls w ++ [c])%list |}).

Declare Scope handler_scope.
Delimit Scope handler_scope with handler.
Notation "x <- m ;; k" := (bind m (fun x => k))
  (at level 61, m at next level, right associativity) : handler_scope.
Notation "m ;; k" := (bind m (fun _ => k))
  (at level 61, right associativity) : handler_scope.
Local Open Scope handler_scope.

(** [await] of a request: the call is made, and its settlement either
    throws or yields [response.data]. *)
Definition await {D} (c : call) (r : response D) : M (option D) :=
  perform c ;;
  match r with
  | Rejected detail => throw (AxiosError detail)
  | Resolved data => ret data
  end.

(** ** State setters *)

Definition setQuiz (q : option quiz_data) : M unit :=
  modify (fun s =>
    {| quiz := q; attemptId := attemptId s; endTime := endTime s;
       currentQuestion := currentQuestion s; answers := answers s;
       loading := loading s; submitting := submitting s;
       error := error s |}).

Definition setAttemptId (v : value) : M unit :=
  modify (fun s =>
    {| quiz := quiz s; attemptId := v; endTime := endTime s;
       currentQuestion := currentQuestion s; answers := answers s;
       loading := loading s; submitting := submitting s;
       error := error s |}).

Definition setEndTime (e : string) : M unit :=
  modify (fun s =>
    {| quiz := quiz s; attemptId := attemptId s; endTime := Some e;
       currentQuestion := currentQuestion s; answers := answers s;
       loading := loading s; submitting := submitting s;
       error := error s |}).

Definition setAnswers (o : object) : M unit :=
  modify (fun s =>
    {| quiz := quiz s; attemptId := attemptId s; endTime := endTime s;
       currentQuestion := currentQuestion s; answers := o;
       loading := loading s; submitting := submitting s;
       error := error s |}).

Definition setLoading (b : bool) : M unit :=
  modify (fun s =>
    {| quiz := quiz s; attemptId := attemptId s; endTime := endTime s;
       currentQuestion := currentQuestion s; answers := answers s;
       loading := b; submitting := submitting s; error := error s |}).

Definition setSubmitting (b : bool) : M unit :=
  modify (fun s =>
    {| quiz := quiz s; attemptId := attemptId s; endTime := endTime s;
       currentQuestion := currentQuestion s; answers := answers s;
       loading := loading s; submitting := b; error := error s |}).

Definition setError (m : string) : M unit :=
  modify (fun s =>
    {| quiz := quiz s; attemptId := attemptId s; endTime := endTime s;
       currentQuestion := currentQuestion s; answers := answers s;
       loading := loading s; submitting := submitting s; error := m |}).

(** [err.response?.data?.detail || fallback]. *)
Definition error_message (e : exn) (fallback : string) : string :=
  match e with
  | AxiosError (Some d) => if String.eqb d "" then fallback else d
  | _ => fallback
  end.

Section WithPlatform.
Context {P : Platform}.

(** ** Acquisition: [startQuiz], lines 25-89 *)

(** The two clock readings and the settlements of the three requests
    [startQuiz] can make. *)
Record env : Type := {
  start1 : response start_data;
  quiz_resp : response quiz_data;
  start2 : response start_data;
  now1 : Z;   (** [Date.now()] of line 54 *)
  now2 : Z    (** [Date.now()] of line 70 *)
}.

(** Lines 45-51, and again lines 63-68 for the retried response:
    [raw.endsWith] exists only when [raw] is a string. *)
Definition parse_start_time (v : value) : completion num :=
  match or_else v (VStr "") with
  | VStr startTimeRaw =>
      let startTimeIso :=
        if endsWith startTimeRaw "Z" then startTimeRaw
        else startTimeRaw ++ "Z" in
      let parsedStart := Date_parse startTimeIso in
      if isNaN parsedStart then Normal (Date_of_value v)
      else Normal parsedStart
  | _ => Throw (JsError "startTimeRaw.endsWith is not a function")
  end.

(** [new Date(n).toISOString()] throws on an invalid date. *)
Definition Date_new_toISOString (n : num) : completion string :=
  match TimeClip n with
  | Fin t => Normal (Date_toISOString t)
  | NaN => Throw (JsError "Invalid time value")
  end.

(** Line 52. *)
Definition timeLimitMinutes_of (d : start_data) (q : quiz_data) : value :=
  nullish (time_limit_minutes d) (quiz_time_limit_minutes q).

(** Line 53. *)
Definition timeLimitMs_of (timeLimitMinutes : value) : num :=
  num_mul (Math_max (Fin 1)
             (Number (or_else timeLimitMinutes (VNum (Fin 0)))))
          (Fin 60000).

(** Line 69. *)
Definition tlm2_of (d2 : start_data) (timeLimitMinutes : value) : num :=
  num_mul (Math_max (Fin 1)
             (Number (or_else (or_else (time_limit_minutes d2)
                                       timeLimitMinutes)
                              (VNum (Fin 1)))))
          (Fin 60000).

(** The object literal of line 77 while the loop of lines 78-81 fills
    it: its own entries, and whether its prototype is still
    [Object.prototype]. *)
Record literal : Type := {
  own : object;
  inherits : bool
}.

(** [o[k] = null] on that object, an ordinary assignment.  For the key
    [__proto__], while the prototype is [Object.prototype] and the
    object has no entry of that name, the assignment runs the setter
    inherited from the prototype: the prototype becomes [null] and no
    entry is created.  In every other case the assignment creates or
    updates the entry. *)
Definition assign_null (k : string) (o : literal) : literal :=
  if String.eqb k "__proto__" && inherits o && negb (obj_has k (own o))
  then {| own := own o; inherits := false |}
  else {| own := obj_set k VNull (own o); inherits := inherits o |}.

(** Line 80, the body of the loop: an element of the array is an
    object, so [q && q.id] is the truthiness of [q.id]. *)
Definition add_question (initialAnswers : literal) (q : question)
  : literal :=
  if truthy (q_id q)
  then assign_null (ToPropertyKey (q_id q)) initialAnswers
  else initialAnswers.

(** Line 78. *)
Definition questions_array (qs : option (list question))
  : list question :=
  match qs with
  | Some l => l
  | None => []
  end.

(** Lines 77-81: the entries of the object handed to [setAnswers]. *)
Definition initialAnswers (qs : option (list question)) : object :=
  let questions := questions_array qs in
  own (fold_left add_question questions {| own := []; inherits := true |}).


(** Lines 27-82: the [try] block. *)
Definition startQuiz_try (e : env) : M unit :=
  setLoading true ;;
  setError "" ;;
  r1 <- await PostStart (start1 e) ;;
  match r1 with
  | Some d1 =>
      if truthy (attempt_id d1) then
        setAttemptId (attempt_id d1) ;;
        rq <- await GetQuiz (quiz_resp e) ;;
        match rq with
        | Some q =>
            setQuiz (Some q) ;;
            parsedStart <- lift (parse_start_time (start_time d1)) ;;
            let timeLimitMinutes := timeLimitMinutes_of d1 q in
            let timeLimitMs := timeLimitMs_of timeLimitMinutes in
            let remainingMs :=
              num_sub (num_add parsedStart timeLimitMs) (Fin (now1 e)) in
            (if num_leb remainingMs (Fin 0) then
               r2 <- await PostStart (start2 e) ;;
               match r2 with
               | Some d2 =>
                   setAttemptId (attempt_id d2) ;;
                   startTime2 <- lift (parse_start_time (start_time d2)) ;;
                   let tlm2 := tlm2_of d2 timeLimitMinutes in
                   let remainingMs :=
                     num_sub (num_add startTime2 tlm2) (Fin (now2 e)) in
                   s <- lift (Date_new_toISOString (num_add startTime2 tlm2)) ;;
                   setEndTime s
               | None =>
                   throw (JsError "Cannot read properties of undefined")
               end
             else
               s <- lift (Date_new_toISOString
                            (num_add parsedStart timeLimitMs)) ;;
               setEndTime s) ;;
            setAnswers (initialAnswers (questions q))
        | None => throw (JsError "Invalid quiz response from server")
        end
      else throw (JsError "Invalid start response from server")
  | None => throw (JsError "Invalid start response from server")
  end.

(** Lines 25-89. *)
Definition startQuiz (e : env) : M unit :=
  finally
    (try_catch (startQuiz_try e)
       (fun err =>
          setError (error_message err
                      "Failed to start quiz. Please try again.")))
    (setLoading false).

(** The state a completed acquisition leaves, for the attempt [a] and
    the deadline [dl]. *)
Definition acquired (s : state) (q : quiz_data) (a : value) (dl : Z)
  : state :=
  {| quiz := Some q; attemptId := a;
     endTime := Some (Date_toISOString dl);
     currentQuestion := currentQuestion s;
     answers := initialAnswers (questions q);
     loading := false; submitting := submitting s; error := "" |}.

End WithPlatform.

(** The limits that line 53 raises to one minute without consulting
    the runtime: nothing, [false], [true], [NaN], the empty string and
    the integers up to 1. *)
Definition clamped_to_one (v : value) : bool :=
  match v with
  | VUndefined | VNull | VBool _ | VNum NaN => true
  | VNum (Fin n) => n <=? 1
  | VStr s => String.eqb s ""
  end.

(** ** Answering: [handleAnswer], lines 91-96 *)

Definition handleAnswer (questionId : value) (optionIndex : Z) : M unit :=
  s <- get ;;
  setAnswers (obj_set (ToPropertyKey questionId)
                      (VNum (Fin optionIndex)) (answers s)).

(** ** Manual submission: [handleSubmit], lines 98-136 *)

Definition string_of_nat (n : nat) : string :=
  NilZero.string_of_uint (Nat.to_uint n).

Definition unanswered_message (n : nat) : string :=
  "Please answer all questions before submitting. "
  ++ string_of_nat n ++ " question(s) remaining.".

(** The number of questions of the quiz whose entry in the answer set
    is [null]. *)
Fixpoint count_unanswered (qs : list question) (a : object) : nat :=
  match qs with
  | [] => 0
  | q :: qs' =>
      match obj_read (ToPropertyKey (q_id q)) a with
      | VNull => S (count_unanswered qs' a)
      | _ => count_unanswered qs' a
      end
  end.

(** Line 100: the filter over [quiz.questions]. *)
Definition unansweredQuestions (qs : list question) (a : object)
  : list question :=
  filter (fun q => is_null (obj_read (ToPropertyKey (q_id q)) a)) qs.

(** Lines 115-118. *)
Definition format_all (a : object) : list (string * value) :=
  map (fun '(question_id, chosen_index) => (question_id, chosen_index))
      (Object_entries a).

(** Lines 99-123, up to the [await]: the result tells whether a request
    is now in flight.  [confirmed] is what the user answers to the
    dialog.  Reading [quiz.questions] of a missing quiz, or filtering
    something that is not an array, throws. *)
Definition handleSubmit_begin (confirmed : bool) : M bool :=
  s <- get ;;
  match quiz s with
  | Some q =>
      match questions q with
      | Some qs =>
          let unanswered := unansweredQuestions qs (answers s) in
          if (0 <? length unanswered)%nat then
            setError (unanswered_message (length unanswered)) ;;
            ret false
          else
            perform Confirm ;;
            if negb confirmed then ret false
            else
              setSubmitting true ;;
              setError "" ;;
              let formattedAnswers := format_all (answers s) in
              perform (PostSubmit (attemptId s) formattedAnswers) ;;
              ret true
      | None => throw (JsError "quiz.questions.filter is not a function")
      end
  | None => throw (JsError "Cannot read properties of null")
  end.

(** Lines 125-135: what runs when the request settles. *)
Definition handleSubmit_settle (r : response result_data) : M unit :=
  try_catch
    (match r with
     | Rejected detail => throw (AxiosError detail)
     | Resolved (Some d) =>
         perform StoreResult ;;
         perform (Navigate (result_id d))
     | Resolved None =>
         perform StoreResult ;;
         throw (JsError "Cannot read properties of undefined")
     end)
    (fun err =>
       setError (error_message err
                   "Failed to submit quiz. Please try again.") ;;
       setSubmitting false).

(** ** Submission on expiry: [handleTimeUp], lines 138-173 *)

(** Lines 150-155. *)
Definition format_answered (a : object) : list (string * value) :=
  map (fun '(question_id, chosen_index) => (question_id, chosen_index))
      (filter (fun '(_, value) => negb (is_null value))
              (Object_entries a)).

(** Lines 139-161, up to the [await]. *)
Definition handleTimeUp_begin : M bool :=
  s <- get ;;
  if submitting s then ret false
  else
    setSubmitting true ;;
    setError "" ;;
    perform Alert ;;
    let formattedAnswers := format_answered (answers s) in
    perform (PostSubmit (attemptId s) formattedAnswers) ;;
    ret true.

(** Lines 163-172. *)
Definition handleTimeUp_settle (r : response result_data) : M unit :=
  try_catch
    (match r with
     | Rejected detail => throw (AxiosError detail)
     | Resolved (Some d) =>
         perform StoreResult ;;
         perform (Navigate (result_id d))
     | Resolved None =>
         perform StoreResult ;;
         throw (JsError "Cannot read properties of undefined")
     end)
    (fun err =>
       setError (error_message err "Failed to auto-submit quiz.") ;;
       setSubmitting false).

(** ** The render function, lines 175-305 *)

(** Line 198, behind the early returns of lines 175-191: the deadline
    handed to [<Timer>], when one is mounted.  The render function reads
    [quiz.questions[currentQuestion]] (line 193) and the text of that
    question (line 223): when [questions] is not an array, or holds no
    question at that index, it throws and nothing is mounted. *)
Definition rendered_timer (s : state) : option string :=
  if loading s then None
  else if negb (String.eqb (error s) "") then None
  else match quiz s with
       | None => None
       | Some q =>
           match questions q with
           | None => None
           | Some qs =>
               match nth_error qs (currentQuestion s) with
               | None => None
               | Some _ =>
                   match endTime s with
                   | Some e => if String.eqb e "" then None else Some e
                   | None => None
                   end
               end
           end
       end.

(** Lines 276-282: the submit button carries [disabled={submitting}];
    a click on a disabled button does not call [handleSubmit]. *)
Definition click_submit (confirmed : bool) : M bool :=
  s <- get ;;
  if submitting s then ret false
  else handleSubmit_begin confirmed.

(** Running a handler from a state, with no call made yet. *)
Definition exec {A} (m : M A) (w : world) : world := snd (m w).

Definition from (s : state) : world := {| st := s; calls := [] |}.

Definition submit_calls (w : world) : list call :=
  filter is_submit (calls w).

Definition start_calls (w : world) : list call :=
  filter is_start (calls w).



(** ** Moving between questions, lines 193 and 254-303 *)

Definition setCurrentQuestion (n : nat) : M unit :=
  modify (fun s =>
    {| quiz := quiz s; attemptId := attemptId s; endTime := endTime s;
       currentQuestion := n; answers := answers s;
       loading := loading s; submitting := submitting s;
       error := error s |}).

(** The questions the quiz view shows: none while loading, on an error
    or without a quiz (lines 175-191). *)
Definition shown_questions (s : state) : option (list question) :=
  if loading s then None
  else if negb (String.eqb (error s) "") then None
  else match quiz s with
       | Some q => questions q
       | None => None
       end.

(** Line 193: [quiz.questions[currentQuestion]], [None] for
    [undefined]. *)
Definition currentQ (s : state) : option question :=
  match shown_questions s with
  | Some qs => nth_error qs (currentQuestion s)
  | None => None
  end.

Inductive click : Type :=
| Previous          (** lines 256-262 *)
| Next              (** lines 268-274 *)
| Dot (index : nat) (** lines 288-302 *).

(** A click reaches its handler only when the button is rendered and
    enabled: "Previous" is disabled on the first question, "Next" is
    rendered while [currentQuestion < quiz.questions.length - 1], and
    there is one dot per question. *)
Definition handle_click (c : click) : M unit :=
  s <- get ;;
  match shown_questions s with
  | Some qs =>
      match c with
      | Previous =>
          if Nat.eqb (currentQuestion s) 0 then ret tt
          else setCurrentQuestion
                 (Z.to_nat (Z.max 0 (Z.of_nat (currentQuestion s) - 1)))
      | Next =>
          if Z.of_nat (currentQuestion s) <? Z.of_nat (length qs) - 1
          then setCurrentQuestion (currentQuestion s + 1)
          else ret tt
      | Dot index =>
          if Nat.ltb index (length qs) then setCurrentQuestion index
          else ret tt
      end
  | None => ret tt
  end.

(** Line 265: [Object.values(answers).filter(a => a !== null).length]. *)
Definition answered_count (a : object) : nat :=
  length (filter (fun a => negb (is_null a)) (map snd a)).

End QuizRunner.

(* ================================================================== *)
(** * utils/auth: the session kept in localStorage *)
(* ================================================================== *)

Module Auth.
Import Js.

(** [localStorage]: string keys, string values. *)
Definition storage : Type := list (string * string).

(** [getItem(k)]: [None] for [null]. *)
Fixpoint getItem (k : string) (l : storage) : option string :=
  match l with
  | [] => None
  | (k', v) :: l' => if String.eqb k k' then Some v else getItem k l'
  end.

Definition removeItem (k : string) (l : storage) : storage :=
  filter (fun e => negb (String.eqb k (fst e))) l.

Definition setItem (k v : string) (l : storage) : storage :=
  (k, v) :: removeItem k l.

(** [JSON.stringify] and [JSON.parse] on the values stored as the
    user: parsing throws on malformed text and yields [None] for the
    literal [null]. *)
Class Json (U : Type) : Type := {
  JSON_stringify : U -> string;
  JSON_parse : string -> completion (option U)
}.

Section WithJson.
Context {U : Type} {J : Json U}.

(** Lines 9-12. *)
Definition setAuth (token : string) (user : U) (l : storage) : storage :=
  setItem "user" (JSON_stringify user) (setItem "token" token l).

(** Lines 18-20. *)
Definition getToken (l : storage) : option string :=
  getItem "token" l.

(** Lines 26-35. *)
Definition getCurrentUser (l : storage) : option U :=
  match getItem "user" l with
  | None => None
  | Some userStr =>
      if String.eqb userStr "" then None
      else match JSON_parse userStr with
           | Normal u => u
           | Throw _ => None
           end
  end.

(** Lines 41-44. *)
Definition clearAuth (l : storage) : storage :=
  removeItem "user" (removeItem "token" l).

(** Lines 49-51: [!!getToken()]. *)
Definition isAuthenticated (l : storage) : bool :=
  match getToken l with
  | Some t => negb (String.eqb t "")
  | None => false
  end.

End WithJson.

End Auth.

(* ================================================================== *)
(** * utils/api: the interceptors of the axios instance *)
(* ================================================================== *)

Module Api.
Import Js Auth.

(** What the interceptors touch of the browser. *)
Record browser : Type := {
  localStorage : storage;
  location_href : string
}.

(** A request configuration: its headers. *)
Record config : Type := {
  headers : object
}.

(** A failed request: the status of its response, if one came. *)
Record failure : Type := {
  response_status : option Z
}.

(** Lines 10-15: the headers every request starts from. *)
Definition base_config : config :=
  {| headers := [("Content-Type", VStr "application/json")] |}.

(** Lines 19-25: the request interceptor. *)
Definition on_request (b : browser) (c : config) : config :=
  match getItem "token" (localStorage b) with
  | Some token =>
      if negb (String.eqb token "")
      then {| headers := obj_set "Authorization"
                           (VStr ("Bearer " ++ token)) (headers c) |}
      else c
  | None => c
  end.

(** Lines 34-41: the response interceptor for failures; the failure is
    passed on to the caller in every case. *)
Definition on_response_error (f : failure) (b : browser)
  : browser * failure :=
  match response_status f with
  | Some status =>
      if status =? 401
      then ({| localStorage :=
                 removeItem "user" (removeItem "token" (localStorage b));
               location_href := "/login" |}, f)
      else (b, f)
  | None => (b, f)
  end.

End Api.

(* ================================================================== *)
(** * App and ProtectedRoute: who gets to see which page *)
(* ================================================================== *)

Module Routes.
Import Js.

Record user : Type := {
  role : value
}.

(** [a === b] on scalars, and [l.includes(v)], which also finds
    [NaN]. *)
Definition strict_eqb (a b : value) : bool :=
  match a, b with
  | VUndefined, VUndefined => true
  | VNull, VNull => true
  | VBool x, VBool y => Bool.eqb x y
  | VNum (Fin x), VNum (Fin y) => x =? y
  | VStr x, VStr y => String.eqb x y
  | _, _ => false
  end.

Definition includes (l : list value) (v : value) : bool :=
  existsb (fun x => match x, v with
                    | VNum NaN, VNum NaN => true
                    | _, _ => strict_eqb x v
                    end) l.

Inductive outcome (page : Type) : Type :=
| Redirect (to : string)
| Render (children : page).

Arguments Redirect {page} to.
Arguments Render {page} children.

(** ProtectedRoute.jsx, lines 3-17. *)
Definition ProtectedRoute {page} (u : option user)
    (allowedRoles : option (list value)) (children : page)
  : outcome page :=
  match u with
  | None => Redirect "/login"
  | Some u =>
      match allowedRoles with
      | Some roles =>
          if negb (includes roles (role u))
          then Redirect (if strict_eqb (role u) (VStr "admin")
                         then "/admin" else "/dashboard")
          else Render children
      | None => Render children
      end
  end.

(** The pages and the paths of App.jsx. *)
Inductive page : Type :=
| Login | Signup | Dashboard | QuizRunner | Results
| AdminDashboard | CreateQuiz | EditQuiz | QuizResults.

Inductive path : Type :=
| P_login | P_signup | P_dashboard | P_quiz | P_results
| P_admin | P_admin_create | P_admin_edit | P_admin_results | P_root.

(** The path a redirect target names. *)
Definition path_of (to : string) : option path :=
  if String.eqb to "/login" then Some P_login
  else if String.eqb to "/admin" then Some P_admin
  else if String.eqb to "/dashboard" then Some P_dashboard
  else None.

(** Lines 41, 44 and 88: where a logged-in user belongs. *)
Definition home (u : user) : string :=
  if strict_eqb (role u) (VStr "admin") then "/admin" else "/dashboard".

(** App.jsx, lines 39-90: the element of each route. *)
Definition App (u : option user) (p : path) : outcome page :=
  match p with
  | P_login =>
      match u with
      | Some u => Redirect (home u)
      | None => Render Login
      end
  | P_signup =>
      match u with
      | Some u => Redirect (home u)
      | None => Render Signup
      end
  | P_dashboard => ProtectedRoute u (Some [VStr "student"]) Dashboard
  | P_quiz => ProtectedRoute u (Some [VStr "student"]) QuizRunner
  | P_results => ProtectedRoute u (Some [VStr "student"]) Results
  | P_admin => ProtectedRoute u (Some [VStr "admin"]) AdminDashboard
  | P_admin_create => ProtectedRoute u (Some [VStr "admin"]) CreateQuiz
  | P_admin_edit => ProtectedRoute u (Some [VStr "admin"]) EditQuiz
  | P_admin_results => ProtectedRoute u (Some [VStr "admin"]) QuizResults
  | P_root =>
      match u with
      | Some u => Redirect (home u)
      | None => Redirect "/login"
      end
  end.

(** Following redirects, at most [n] of them: the page that ends up
    rendered, if any. *)
Fixpoint settle (n : nat) (u : option user) (p : path) : option page :=
  match App u p with
  | Render pg => Some pg
  | Redirect to =>
      match n with
      | O => None
      | S n' =>
          match path_of to with
          | Some p' => settle n' u p'
          | None => None
          end
      end
  end.

End Routes.

(* ================================================================== *)
(** * An instance of the runtime: ISO-8601 UTC stamps *)
(* ================================================================== *)

Module Iso.
Import Js.

Definition digit (c : ascii) : option Z :=
  let n := Z.of_nat (nat_of_ascii c) in
  if (48 <=? n) && (n <=? 57) then Some (n - 48) else None.

Fixpoint digits (acc : Z) (l : list ascii) : option Z :=
  match l with
  | [] => Some acc
  | c :: l' =>
      match digit c with
      | Some d => digits (10 * acc + d) l'
      | None => None
      end
  end.

(** Days since 1970-01-01 of a date of the proleptic Gregorian
    calendar, and back. *)
Definition days_from_civil (y m d : Z) : Z :=
  let y' := if m <=? 2 then y - 1 else y in
  let era := y' / 400 in
  let yoe := y' - era * 400 in
  let mp := (m + 9) mod 12 in
  let doy := (153 * mp + 2) / 5 + d - 1 in
  let doe := yoe * 365 + yoe / 4 - yoe / 100 + doy in
  era * 146097 + doe - 719468.

Definition civil_from_days (z : Z) : Z * Z * Z :=
  let z := z + 719468 in
  let era := z / 146097 in
  let doe := z - era * 146097 in
  let yoe := (doe - doe / 1460 + doe / 36524 - doe / 146096) / 365 in
  let doy := doe - (365 * yoe + yoe / 4 - yoe / 100) in
  let mp := (5 * doy + 2) / 153 in
  let d := doy - (153 * mp + 2) / 5 + 1 in
  let m := if mp <? 10 then mp + 3 else mp - 9 in
  (if m <=? 2 then yoe + era * 400 + 1 else yoe + era * 400, m, d).

Definition ms_per_day : Z := 86400000.

Definition make_time (y mo d h mi s ms : Z) : num :=
  let valid_date :=
    match civil_from_days (days_from_civil y mo d) with
    | (y', mo', d') => (y' =? y) && (mo' =? mo) && (d' =? d)
    end in
  if valid_date && (h <=? 23) && (mi <=? 59) && (s <=? 59)
  then TimeClip (Fin (days_from_civil y mo d * ms_per_day
                      + h * 3600000 + mi * 60000 + s * 1000 + ms))
  else NaN.

(** [YYYY-MM-DDTHH:mm:ss] or [YYYY-MM-DDTHH:mm:ss.sss], followed by [Z]. *)
Definition parse (s : string) : num :=
  match list_ascii_of_string s with
  | y1 :: y2 :: y3 :: y4 :: "-"%char :: m1 :: m2 :: "-"%char :: d1 :: d2
    :: "T"%char :: h1 :: h2 :: ":"%char :: n1 :: n2 :: ":"%char
    :: s1 :: s2 :: rest =>
      let fraction :=
        match rest with
        | ["Z"%char] => Some 0
        | ["."%char; f1; f2; f3; "Z"%char] => digits 0 [f1; f2; f3]
        | _ => None
        end in
      match digits 0 [y1; y2; y3; y4], digits 0 [m1; m2],
            digits 0 [d1; d2], digits 0 [h1; h2], digits 0 [n1; n2],
            digits 0 [s1; s2], fraction with
      | Some y, Some mo, Some d, Some h, Some mi, Some sec, Some ms =>
          make_time y mo d h mi sec ms
      | _, _, _, _, _, _, _ => NaN
      end
  | _ => NaN
  end.

(** [n] in decimal on at least [w] digits. *)
Definition pad (w : nat) (n : Z) : string :=
  let s := string_of_Z n in
  string_of_list_ascii (repeat "0"%char (w - String.length s))
  ++ s.

(** [YYYY-MM-DDTHH:mm:ss.sssZ]; years outside 0..9999 take a sign and
    six digits. *)
Definition toISOString (t : Z) : string :=
  let days := t / ms_per_day in
  let r := t mod ms_per_day in
  match civil_from_days days with
  | (y, mo, d) =>
      let year :=
        if (0 <=? y) && (y <=? 9999) then pad 4 y
        else if y <? 0 then "-" ++ pad 6 (- y)
        else "+" ++ pad 6 y in
      year ++ "-" ++ pad 2 mo ++ "-" ++ pad 2 d ++ "T"
      ++ pad 2 (r / 3600000) ++ ":" ++ pad 2 (r mod 3600000 / 60000)
      ++ ":" ++ pad 2 (r mod 60000 / 1000) ++ "." ++ pad 3 (r mod 1000)
      ++ "Z"
  end.

Definition is_space (c : ascii) : bool :=
  match nat_of_ascii c with
  | 9%nat | 10%nat | 11%nat | 12%nat | 13%nat | 32%nat => true
  | _ => false
  end.

Fixpoint drop_spaces (l : list ascii) : list ascii :=
  match l with
  | c :: l' => if is_space c then drop_spaces l' else l
  | [] => []
  end.

Definition trim (l : list ascii) : list ascii :=
  List.rev (drop_spaces (List.rev (drop_spaces l))).

(** [Number(s)] on decimal integer literals; the empty string is 0.
    Literals with a fraction, an exponent or a radix prefix denote
    numbers the model does not represent and are read as [NaN]. *)
Definition number_of_string (s : string) : num :=
  match trim (list_ascii_of_string s) with
  | [] => Fin 0
  | "-"%char :: c :: l' =>
      match digits 0 (c :: l') with
      | Some n => Fin (- n)
      | None => NaN
      end
  | "+"%char :: c :: l' =>
      match digits 0 (c :: l') with
      | Some n => Fin n
      | None => NaN
      end
  | l =>
      match digits 0 l with
      | Some n => Fin n
      | None => NaN
      end
  end.

#[export] Instance platform : Platform := {
  Date_parse := parse;
  Date_toISOString := toISOString;
  StringToNumber := number_of_string
}.

End Iso.


(* ================================================================== *)
(** * Sample data *)
(* ================================================================== *)

Module Sample.
Import Js QuizRunner.

Definition ask (i : value) : question :=
  {| q_id := i; q_text := "?"; q_options := ["a"; "b"; "c"] |}.

(** Four questions, numbered 1 to 4, fifteen minutes. *)
Definition quiz4 : quiz_data :=
  {| title := "Sample"; description := "Four questions";
     quiz_time_limit_minutes := VNum (Fin 15);
     questions := Some [ask (VNum (Fin 1)); ask (VNum (Fin 2));
                        ask (VNum (Fin 3)); ask (VNum (Fin 4))] |}.


(** The attempt 7 started on 2024-01-01 at 10:00:00 UTC, epoch
    millisecond 1704103200000. *)
Definition started (limit : value) : start_data :=
  {| attempt_id := VNum (Fin 7);
     start_time := VStr "2024-01-01T10:00:00";
     time_limit_minutes := limit |}.

Definition t1000 : Z := 1704103200000.

(** Five minutes into a fifteen-minute attempt. *)
Definition on_time : env :=
  {| start1 := Resolved (Some (started (VNum (Fin 15))));
     quiz_resp := Resolved (Some quiz4);
     start2 := Rejected None;
     now1 := t1000 + 300000; now2 := t1000 + 300000 |}.

(** Twenty minutes after the start of a fifteen-minute attempt, and the
    retried start returns the same attempt. *)
Definition expired_twice : env :=
  {| start1 := Resolved (Some (started (VNum (Fin 15))));
     quiz_resp := Resolved (Some quiz4);
     start2 := Resolved (Some (started (VNum (Fin 15))));
     now1 := t1000 + 1200000; now2 := t1000 + 1200005 |}.

(** The start response carries no limit, the quiz says fifteen
    minutes. *)
Definition limit_from_quiz : env :=
  {| start1 := Resolved (Some (started VUndefined));
     quiz_resp := Resolved (Some quiz4);
     start2 := Rejected None;
     now1 := t1000 + 300000; now2 := t1000 + 300000 |}.

(** A zero limit everywhere. *)
Definition zero_limit : env :=
  {| start1 := Resolved (Some (started (VNum (Fin 0))));
     quiz_resp := Resolved (Some quiz4);
     start2 := Rejected None;
     now1 := t1000 + 30000; now2 := t1000 + 30000 |}.

(** A limit of 150000000000 minutes: the deadline is past the last
    time a [Date] can hold. *)
Definition far_limit : env :=
  {| start1 := Resolved (Some (started (VNum (Fin 150000000000))));
     quiz_resp := Resolved (Some quiz4);
     start2 := Rejected None;
     now1 := t1000 + 300000; now2 := t1000 + 300000 |}.




(** The attempt under way, with the given answer set. *)
Definition running (a : object) : state :=
  {| quiz := Some quiz4; attemptId := VNum (Fin 7);
     endTime := Some "2024-01-01T10:15:00.000Z";
     currentQuestion := 3%nat; answers := a; loading := false;
     submitting := false; error := "" |}.

Definition three_of_four : object :=
  [("1", VNum (Fin 0)); ("2", VNum (Fin 2)); ("3", VNum (Fin 1));
   ("4", VNull)].

Definition all_four : object :=
  [("1", VNum (Fin 0)); ("2", VNum (Fin 2)); ("3", VNum (Fin 1));
   ("4", VNum (Fin 1))].

Definition none_of_four : object :=
  [("1", VNull); ("2", VNull); ("3", VNull); ("4", VNull)].

(** The server refuses the start and says why. *)
Definition refused_start : env :=
  {| start1 := Rejected (Some "Quiz not found");
     quiz_resp := Resolved (Some quiz4);
     start2 := Rejected None;
     now1 := t1000; now2 := t1000 |}.

(** The start response carries a start time that is no date. *)
Definition bad_start_time : env :=
  {| start1 := Resolved (Some {| attempt_id := VNum (Fin 7);
                                 start_time := VStr "yesterday";
                                 time_limit_minutes := VNum (Fin 15) |});
     quiz_resp := Resolved (Some quiz4);
     start2 := Rejected None;
     now1 := t1000; now2 := t1000 |}.

(** JSON restricted to integers and [null], to store a user by
    number: canonical decimal text parses, anything else throws. *)
Definition parse_integer (s : string) : completion (option Z) :=
  if String.eqb s "null" then Normal None
  else match Iso.number_of_string s with
       | Fin z => if String.eqb (string_of_Z z) s then Normal (Some z)
                  else Throw (JsError "Unexpected token")
       | NaN => Throw (JsError "Unexpected token")
       end.

#[export] Instance json_integer : Auth.Json Z := {
  Auth.JSON_stringify := string_of_Z;
  Auth.JSON_parse := parse_integer
}.

End Sample.

(* ================================================================== *)
(** * Properties of the deadline timer *)
(* ================================================================== *)

Section TimerFacts.
Import Js Timer.
Context {P : Platform}.

Lemma run_app (s1 s2 : list event) (w : world) :
  run (s1 ++ s2) w = run s2 (run s1 w).
Proof. unfold run. apply fold_left_app. Qed.

Lemma run_cons (e : event) (s : list event) (w : world) :
  run (e :: s) w = run s (step w e).
Proof. reflexivity. Qed.

Lemma calculateTimeLeft_future endTime D w :
  deadline endTime = Fin D -> clock w < D ->
  calculateTimeLeft endTime w = Fin (D - clock w).
Proof.
  unfold deadline, calculateTimeLeft. intros -> H.
  cbn [num_sub Math_max]. now rewrite Z.max_r by lia.
Qed.

Lemma calculateTimeLeft_past endTime D w :
  deadline endTime = Fin D -> D <= clock w ->
  calculateTimeLeft endTime w = Fin 0.
Proof.
  unfold deadline, calculateTimeLeft. intros -> H.
  cbn [num_sub Math_max]. now rewrite Z.max_l by lia.
Qed.

Lemma calculateTimeLeft_invalid endTime w :
  deadline endTime = NaN -> calculateTimeLeft endTime w = NaN.
Proof.
  unfold deadline, calculateTimeLeft. intros ->. reflexivity.
Qed.

(** A delay the runtime can hold is kept as it is; a larger one is
    dropped. *)
Lemma runtime_delay_fits (d : Z) : d <= max_delay -> runtime_delay d = d.
Proof.
  intros H. unfold runtime_delay.
  now replace (d <=? max_delay) with true by (symmetry; apply Z.leb_le; lia).
Qed.

Lemma runtime_delay_overflow (d : Z) :
  max_delay < d -> runtime_delay d = 0.
Proof.
  intros H. unfold runtime_delay.
  now replace (d <=? max_delay) with false by (symmetry; apply Z.leb_gt; lia).
Qed.

Lemma runtime_delay_bounds (d : Z) : 0 <= d -> 0 <= runtime_delay d <= d.
Proof.
  intros H. unfold runtime_delay. destruct (d <=? max_delay); lia.
Qed.

(** What [start] leaves behind, by the position of the deadline. *)
Lemma start_future endTime D now id0 :
  deadline endTime = Fin D -> now < D ->
  start endTime now id0 =
  {| clock := now; next_id := Pos.succ (Pos.succ id0);
     pending := [ {| id := id0; due := now + runtime_delay (D - now);
                     what := Timeout |};
                  {| id := Pos.succ id0; due := now + 1000;
                     what := Interval endTime |} ];
     timeLeft := Fin ((D - now) / 1000);
     timeoutRef := Some id0; intervalRef := Some (Pos.succ id0);
     log := [] |}.
Proof.
  intros HD Hlt. unfold start, effect. cbn [fresh intervalRef timeoutRef clear_ref].
  rewrite (calculateTimeLeft_future endTime D) by (assumption || (simpl; lia)).
  cbn. replace (D - now <=? 0) with false by (symmetry; apply Z.leb_gt; lia).
  replace (0 <? D - now) with true by (symmetry; apply Z.ltb_lt; lia).
  cbn. unfold set_intervalRef. cbn. reflexivity.
Qed.

Lemma start_past endTime D now id0 :
  deadline endTime = Fin D -> D <= now ->
  start endTime now id0 = fresh now id0.
Proof.
  intros HD Hle. unfold start, effect. cbn [fresh intervalRef timeoutRef clear_ref].
  rewrite (calculateTimeLeft_past endTime D) by (assumption || (simpl; lia)).
  reflexivity.
Qed.

Lemma start_invalid endTime now id0 :
  deadline endTime = NaN ->
  start endTime now id0 = setTimeLeft NaN (fresh now id0).
Proof.
  intros HD. unfold start, effect. cbn [fresh intervalRef timeoutRef clear_ref].
  rewrite calculateTimeLeft_invalid by assumption.
  reflexivity.
Qed.

(** With no timer armed the runtime has nothing to run. *)
Lemma step_idle (w : world) (e : event) :
  pending w = [] -> runtime_event e = true ->
  pending (step w e) = [] /\ log (step w e) = log w
  /\ timeLeft (step w e) = timeLeft w /\ next_id (step w e) = next_id w
  /\ clock w <= clock (step w e).
Proof.
  intros Hp He. destruct e as [d | i | s | ]; try discriminate; simpl.
  - repeat split; try assumption. lia.
  - unfold fire. rewrite Hp. simpl. repeat split; try assumption. lia.
Qed.

Lemma run_idle (sch : list event) (w : world) :
  pending w = [] -> forallb runtime_event sch = true ->
  pending (run sch w) = [] /\ log (run sch w) = log w
  /\ timeLeft (run sch w) = timeLeft w /\ next_id (run sch w) = next_id w
  /\ clock w <= clock (run sch w).
Proof.
  revert w. induction sch as [| e sch IH]; intros w Hp Hs.
  - simpl. repeat split; try assumption. lia.
  - simpl in Hs. apply andb_true_iff in Hs as [He Hs].
    rewrite run_cons.
    destruct (step_idle w e Hp He) as (Hp' & Hl & Ht & Hn & Hc).
    destruct (IH (step w e) Hp' Hs) as (? & ? & ? & ? & ?).
    repeat split; try congruence. lia.
Qed.

Lemma succ_eqb_self (p : positive) : Pos.eqb (Pos.succ p) p = false.
Proof. apply Pos.eqb_neq. lia. Qed.

Lemma start_armed endTime D now id0 :
  deadline endTime = Fin D -> now < D ->
  armed endTime (now + runtime_delay (D - now)) id0
        (start endTime now id0).
Proof.
  intros HD Hlt. rewrite (start_future endTime D) by assumption.
  exists (now + 1000), []. simpl. repeat split.
Qed.

(** A deadline the delay can reach is the time the timeout is due. *)
Lemma due_at_deadline (D now : Z) :
  D - now <= max_delay -> now + runtime_delay (D - now) = D.
Proof. intros H. rewrite runtime_delay_fits by assumption. lia. Qed.

Lemma expirations_ticks (w : world) (ticks : list Z) :
  log w = map DisplayTick ticks -> expirations w = [].
Proof.
  unfold expirations. intros ->. induction ticks; simpl; auto.
Qed.

Lemma expirations_spent (w : world) (t : Z) (ticks : list Z) :
  log w = Expired t :: map DisplayTick ticks -> expirations w = [t].
Proof.
  unfold expirations. intros ->. simpl. f_equal.
  induction ticks; simpl; auto.
Qed.

Lemma updates_spent (w : world) (t : Z) (ticks : list Z) :
  log w = Expired t :: map DisplayTick ticks -> updates w = ticks.
Proof.
  unfold updates. intros ->. simpl.
  induction ticks; simpl; congruence.
Qed.

(** Firing the timeout of an armed timer, once it is due. *)
Lemma fire_timeout endTime D id0 w :
  armed endTime D id0 w -> D <= clock w ->
  spent D id0 (fire id0 w) /\ expirations (fire id0 w) = [clock w].
Proof.
  intros (next & ticks & Hp & Hto & Hiv & Hl & Hn) Hdue.
  assert (Hf : fire id0 w =
               observe (Expired (clock w))
                 (setTimeLeft (Fin 0) (set_pending [] w))).
  { unfold fire. rewrite Hp. simpl. rewrite Pos.eqb_refl. simpl.
    replace (D <=? clock w) with true by (symmetry; apply Z.leb_le; lia).
    unfold on_timeout, clearTimer. simpl. rewrite Hp. simpl.
    rewrite Pos.eqb_refl, succ_eqb_self. simpl. rewrite Hiv. simpl.
    unfold clearTimer, setTimeLeft, set_pending. simpl.
    rewrite Pos.eqb_refl. reflexivity. }
  rewrite Hf. split.
  - exists (clock w), ticks. simpl. rewrite Hl.
    repeat split; try assumption; lia.
  - apply (expirations_spent _ (clock w) ticks). simpl. now rewrite Hl.
Qed.

Lemma step_armed endTime D id0 w e :
  armed endTime D id0 w -> runtime_event e = true ->
  armed endTime D id0 (step w e) \/ spent D id0 (step w e).
Proof.
  intros Ha He. destruct e as [d | i | s | ]; try discriminate; simpl.
  - left. destruct Ha as (next & ticks & Ha). exists next, ticks. exact Ha.
  - destruct (Pos.eqb_spec i id0) as [-> | Hi0].
    + destruct (Z_le_gt_dec D (clock w)) as [Hdue | Hnot].
      * right. now apply (fire_timeout endTime).
      * left. destruct Ha as (next & ticks & Hp & Ha).
        assert (Hf : fire id0 w = w).
        { unfold fire. rewrite Hp. simpl. rewrite Pos.eqb_refl. cbn [due].
          now replace (D <=? clock w) with false
            by (symmetry; apply Z.leb_gt; lia). }
        rewrite Hf. exists next, ticks. auto.
    + destruct Ha as (next & ticks & Hp & Hto & Hiv & Hl & Hn).
      assert (Hi0' : Pos.eqb id0 i = false) by (apply Pos.eqb_neq; congruence).
      destruct (Pos.eqb_spec (Pos.succ id0) i) as [<- | Hi1].
      * destruct (next <=? clock w) eqn:Hdue.
        -- assert (Hf : fire (Pos.succ id0) w =
                   observe (DisplayTick (clock w))
                     (setTimeLeft
                        (floor_div (calculateTimeLeft endTime w) 1000)
                        (set_pending
                           [ {| id := id0; due := D; what := Timeout |};
                             {| id := Pos.succ id0; due := clock w + 1000;
                                what := Interval endTime |} ] w))).
           { unfold fire. rewrite Hp. simpl. rewrite Hi0', Pos.eqb_refl.
             cbn [due what]. rewrite Hdue. reflexivity. }
           rewrite Hf. left.
           exists (clock w + 1000), (clock w :: ticks). simpl.
           rewrite Hl. repeat split; assumption.
        -- assert (Hf : fire (Pos.succ id0) w = w).
           { unfold fire. rewrite Hp. simpl. rewrite Hi0', Pos.eqb_refl.
             cbn [due]. now rewrite Hdue. }
           rewrite Hf. left. exists next, ticks. auto.
      * assert (Hf : fire i w = w).
        { unfold fire. rewrite Hp. simpl. rewrite Hi0'.
          assert (Pos.eqb (Pos.succ id0) i = false) as ->
            by (now apply Pos.eqb_neq).
          reflexivity. }
        rewrite Hf. left. exists next, ticks. auto.
Qed.

Lemma step_spent D id0 w e :
  spent D id0 w -> runtime_event e = true ->
  spent D id0 (step w e) /\ log (step w e) = log w.
Proof.
  intros (t & ticks & Ht & Hc & Hl & Hp & Hn) He.
  destruct (step_idle w e Hp He) as (Hp' & Hl' & _ & Hn' & Hc').
  split; [| assumption].
  exists t, ticks. repeat split; try congruence; lia.
Qed.

Lemma run_spent D id0 sch w :
  spent D id0 w -> forallb runtime_event sch = true ->
  spent D id0 (run sch w) /\ log (run sch w) = log w.
Proof.
  revert w. induction sch as [| e sch IH]; intros w Hs Hr.
  - simpl. auto.
  - simpl in Hr. apply andb_true_iff in Hr as [He Hr]. rewrite run_cons.
    destruct (step_spent D id0 w e Hs He) as [Hs' Hl'].
    destruct (IH _ Hs' Hr) as [Hs'' Hl'']. split; congruence.
Qed.

Lemma run_armed endTime D id0 sch w :
  armed endTime D id0 w -> forallb runtime_event sch = true ->
  armed endTime D id0 (run sch w) \/ spent D id0 (run sch w).
Proof.
  revert w. induction sch as [| e sch IH]; intros w Ha Hr.
  - now left.
  - simpl in Hr. apply andb_true_iff in Hr as [He Hr]. rewrite run_cons.
    destruct (step_armed endTime D id0 w e Ha He) as [Ha' | Hs'].
    + now apply IH.
    + right. now apply (run_spent D id0).
Qed.

Lemma clock_monotone sch w :
  forallb runtime_event sch = true -> clock w <= clock (run sch w).
Proof.
  revert w. induction sch as [| e sch IH]; intros w Hr.
  - simpl. lia.
  - simpl in Hr. apply andb_true_iff in Hr as [He Hr]. rewrite run_cons.
    specialize (IH (step w e) Hr).
    assert (clock w <= clock (step w e)); [| lia].
    destruct e as [d | i | s | ]; try discriminate; simpl; [lia |].
    unfold fire. destruct (find_timer i (pending w)) as [t |]; [| lia].
    destruct (due t <=? clock w); [| lia].
    destruct (what t); unfold on_timeout, on_interval; simpl;
      [destruct (intervalRef w); simpl; lia | lia].
Qed.

(** The cleanup function leaves nothing armed, so a timer that is
    unmounted before its deadline never calls the expiry callback. *)
Lemma cleanup_armed endTime D id0 w :
  armed endTime D id0 w ->
  pending (cleanup w) = [] /\ log (cleanup w) = log w.
Proof.
  intros (next & ticks & Hp & Hto & Hiv & Hl & Hn).
  unfold cleanup. rewrite Hiv. simpl. rewrite Hto. simpl.
  unfold clearTimer. simpl. rewrite Hp. simpl.
  assert (E : Pos.eqb id0 (Pos.succ id0) = false)
    by (apply Pos.eqb_neq; lia).
  rewrite E, Pos.eqb_refl. simpl.
  rewrite Pos.eqb_refl. split; reflexivity.
Qed.

Lemma unmount_armed endTime D id0 w sch :
  armed endTime D id0 w -> forallb runtime_event sch = true ->
  expirations (run (Unmount :: sch) w) = [].
Proof.
  intros Ha Hr. rewrite run_cons. simpl.
  destruct (cleanup_armed endTime D id0 w Ha) as [Hp Hl].
  destruct (run_idle sch (cleanup w) Hp Hr) as (_ & Hl' & _).
  destruct Ha as (next & ticks & _ & _ & _ & Hlog & _).
  apply (expirations_ticks _ ticks). congruence.
Qed.

Lemma clear_ref_frame (r : option positive) (w : world) :
  clock (clear_ref r w) = clock w
  /\ next_id (clear_ref r w) = next_id w
  /\ (pending w = [] -> pending (clear_ref r w) = []).
Proof.
  destruct r as [i |]; simpl; repeat split; auto.
  intros ->. reflexivity.
Qed.

(** Running the effect again for a new deadline replaces the schedule:
    the old timers are cleared before the new ones are armed. *)
Lemma rerun_supersedes endTime D id0 w endTime' D' :
  armed endTime D id0 w ->
  deadline endTime' = Fin D' -> clock w < D' ->
  pending (step w (Rerun endTime'))
  = [ {| id := next_id w; due := clock w + runtime_delay (D' - clock w);
         what := Timeout |};
      {| id := Pos.succ (next_id w); due := clock w + 1000;
         what := Interval endTime' |} ].
Proof.
  intros Ha HD Hlt.
  destruct (cleanup_armed endTime D id0 w Ha) as [Hp _].
  assert (Hc : clock (cleanup w) = clock w /\ next_id (cleanup w) = next_id w).
  { unfold cleanup.
    destruct (clear_ref_frame (intervalRef w) w) as (C1 & N1 & _).
    destruct (clear_ref_frame (timeoutRef (clear_ref (intervalRef w) w))
                (clear_ref (intervalRef w) w)) as (C2 & N2 & _).
    split; congruence. }
  destruct Hc as [Hc Hn].
  simpl. unfold effect.
  set (w0 := clear_ref (intervalRef (cleanup w)) (cleanup w)).
  set (w1 := clear_ref (timeoutRef w0) w0).
  assert (H1 : pending w1 = [] /\ clock w1 = clock w
               /\ next_id w1 = next_id w).
  { destruct (clear_ref_frame (intervalRef (cleanup w)) (cleanup w))
      as (C1 & N1 & P1).
    destruct (clear_ref_frame (timeoutRef w0) w0) as (C2 & N2 & P2).
    subst w1. fold w0 in C1, N1, P1.
    repeat split; [apply P2, P1, Hp | congruence | congruence]. }
  destruct H1 as (Hp1 & Hc1 & Hn1).
  rewrite (calculateTimeLeft_future endTime' D') by (assumption || lia).
  cbn [num_gtb]. replace (0 <? D' - clock w1) with true
    by (symmetry; apply Z.ltb_lt; lia).
  simpl. rewrite Hp1, Hc1, Hn1. simpl. reflexivity.
Qed.

End TimerFacts.

Import Js Timer.




(** C6, as the code has it.  For every deadline already in the past at
    start time, starting the timer arms no timeout and no interval: the
    display is set to 0, and whatever the runtime does afterwards the
    expiry callback is never called and no periodic display update is
    emitted. *)
Theorem timer_past_deadline_arms_nothing {P : Platform}
    endTime D now id0 sch :
  deadline endTime = Fin D -> D <= now ->
  forallb runtime_event sch = true ->
  let w0 := start endTime now id0 in
  pending w0 = [] /\ timeoutRef w0 = None /\ intervalRef w0 = None
  /\ timeLeft w0 = Fin 0
  /\ pending (run sch w0) = []
  /\ expirations (run sch w0) = []
  /\ updates (run sch w0) = [].
Proof.
  intros HD Hle Hr w0. subst w0.
  rewrite (start_past endTime D now id0 HD Hle).
  destruct (run_idle sch (fresh now id0) eq_refl Hr) as (Hp & Hl & _).
  unfold expirations, updates. rewrite Hl, Hp. simpl. repeat split.
Qed.

Lemma timer_past_deadline_arms_nothing_witness :
  expirations
    (run (P := Iso.platform) [Advance 0; Fire 1; Advance 1000; Fire 2]
         (start (P := Iso.platform) "2024-01-01T10:00:00.000Z"
                1704103500000 1)) = [].
Proof.
  pose proof (timer_past_deadline_arms_nothing (P := Iso.platform)
                "2024-01-01T10:00:00.000Z" 1704103200000 1704103500000 1
                [Advance 0; Fire 1; Advance 1000; Fire 2]
                eq_refl ltac:(lia) eq_refl) as H.
  exact (proj1 (proj2 (proj2 (proj2 (proj2 (proj2 H)))))).
Defined.

(** C6 as stated fails: with the deadline five minutes in the past, no
    schedule of the runtime makes the expiry callback run. *)
Lemma timer_past_deadline_never_expires :
  ~ (exists sch,
        forallb runtime_event sch = true
        /\ expirations
             (run (P := Iso.platform) sch
                  (start (P := Iso.platform) "2024-01-01T10:00:00.000Z"
                         1704103500000 1)) <> []).
Proof.
  intros (sch & Hr & Hne). apply Hne.
  rewrite (start_past (P := Iso.platform) "2024-01-01T10:00:00.000Z"
             1704103200000 1704103500000 1 eq_refl ltac:(lia)).
  destruct (run_idle (P := Iso.platform) sch (fresh 1704103500000 1)
              eq_refl Hr) as (_ & Hl & _).
  unfold expirations. now rewrite Hl.
Qed.

(** C7, as the code has it.  Starting the timer with a deadline string
    that cannot be parsed is not rejected: mounting completes normally,
    the display holds [NaN], no timeout and no interval is armed, and
    the expiry callback is never called.  Apart from the display the
    component is in the state an already expired deadline leaves. *)
Theorem timer_unparseable_deadline_is_silent {P : Platform}
    endTime now id0 sch :
  deadline endTime = NaN ->
  forallb runtime_event sch = true ->
  mount endTime now id0 = Normal (setTimeLeft NaN (fresh now id0))
  /\ pending (start endTime now id0) = []
  /\ timeLeft (start endTime now id0) = NaN
  /\ expirations (run sch (start endTime now id0)) = []
  /\ updates (run sch (start endTime now id0)) = [].
Proof.
  intros HD Hr. unfold mount.
  rewrite (start_invalid endTime now id0 HD).
  destruct (run_idle sch (setTimeLeft NaN (fresh now id0)) eq_refl Hr)
    as (_ & Hl & _).
  unfold expirations, updates. rewrite Hl. simpl. repeat split.
Qed.

Lemma timer_unparseable_deadline_is_silent_witness :
  mount (P := Iso.platform) "next tuesday" 1704103200000 1
  = Normal (setTimeLeft NaN (fresh 1704103200000 1)).
Proof.
  exact (proj1 (timer_unparseable_deadline_is_silent (P := Iso.platform)
                  "next tuesday" 1704103200000 1 [Advance 5; Fire 1]
                  eq_refl eq_refl)).
Defined.

(** C7 as stated fails: a deadline that does not parse is not rejected
    by the start of the timer, which completes normally with nothing
    armed. *)
Lemma timer_unparseable_deadline_not_rejected :
  deadline (P := Iso.platform) "next tuesday" = NaN
  /\ ~ (exists e,
          mount (P := Iso.platform) "next tuesday" 1704103200000 1
          = Throw e)
  /\ pending (start (P := Iso.platform) "next tuesday" 1704103200000 1)
     = [].
Proof.
  split; [reflexivity | split; [| reflexivity]].
  intros (e & He). discriminate He.
Qed.

(* ================================================================== *)
(** * Properties of objects used as dictionaries *)
(* ================================================================== *)

Section ObjectFacts.
Import Js.

Lemma obj_get_app (k : string) (o1 o2 : object) :
  obj_get k (o1 ++ o2)%list =
  match obj_get k o1 with
  | Some v => Some v
  | None => obj_get k o2
  end.
Proof.
  induction o1 as [| [k' v'] o1 IH]; simpl; [reflexivity |].
  destruct (String.eqb k k'); [reflexivity | exact IH].
Qed.

Lemma obj_get_update_same (k : string) (v : value) (o : object) :
  obj_has k o = true -> obj_get k (obj_update k v o) = Some v.
Proof.
  unfold obj_has. induction o as [| [k' v'] o IH]; simpl; [discriminate |].
  destruct (String.eqb k k') eqn:E; simpl.
  - now rewrite String.eqb_refl.
  - rewrite E. exact IH.
Qed.

Lemma obj_get_update_other (k k' : string) (v : value) (o : object) :
  k' <> k -> obj_get k' (obj_update k v o) = obj_get k' o.
Proof.
  intros Hne. induction o as [| [k0 v0] o IH]; simpl; [reflexivity |].
  destruct (String.eqb_spec k k0) as [<- | Hk]; simpl.
  - apply String.eqb_neq in Hne. now rewrite Hne.
  - now rewrite IH.
Qed.

Lemma obj_get_insert_index_same (n : N) (k : string) (v : value)
    (o : object) :
  obj_get k o = None -> obj_get k (obj_insert_index n k v o) = Some v.
Proof.
  induction o as [| [k0 v0] o IH]; simpl.
  - now rewrite String.eqb_refl.
  - destruct (String.eqb k k0) eqn:E; [discriminate |]. intros Hn.
    destruct (array_index k0) as [m |]; [destruct (n <? m)%N |]; simpl;
      rewrite ?String.eqb_refl, ?E; auto.
Qed.

Lemma obj_get_insert_index_other (n : N) (k k' : string) (v : value)
    (o : object) :
  k' <> k -> obj_get k' (obj_insert_index n k v o) = obj_get k' o.
Proof.
  intros Hne. apply String.eqb_neq in Hne.
  induction o as [| [k0 v0] o IH]; simpl.
  - now rewrite Hne.
  - destruct (array_index k0) as [m |]; [destruct (n <? m)%N |]; simpl;
      rewrite ?Hne, ?IH; reflexivity.
Qed.

Lemma obj_get_set_same (k : string) (v : value) (o : object) :
  obj_get k (obj_set k v o) = Some v.
Proof.
  unfold obj_set. destruct (obj_has k o) eqn:H.
  - now apply obj_get_update_same.
  - assert (Hn : obj_get k o = None).
    { unfold obj_has in H. now destruct (obj_get k o). }
    destruct (array_index k).
    + now apply obj_get_insert_index_same.
    + rewrite obj_get_app, Hn. simpl. now rewrite String.eqb_refl.
Qed.

Lemma obj_get_set_other (k k' : string) (v : value) (o : object) :
  k' <> k -> obj_get k' (obj_set k v o) = obj_get k' o.
Proof.
  intros Hne. unfold obj_set. destruct (obj_has k o).
  - now apply obj_get_update_other.
  - destruct (array_index k).
    + now apply obj_get_insert_index_other.
    + rewrite obj_get_app. destruct (obj_get k' o); [reflexivity |].
      simpl. apply String.eqb_neq in Hne. now rewrite Hne.
Qed.

Lemma obj_has_set (k k' : string) (v : value) (o : object) :
  obj_has k' (obj_set k v o) = true <-> k' = k \/ obj_has k' o = true.
Proof.
  unfold obj_has at 1. destruct (String.eqb_spec k' k) as [-> | Hne].
  - rewrite obj_get_set_same. tauto.
  - rewrite obj_get_set_other by assumption. fold (obj_has k' o). tauto.
Qed.

Lemma obj_get_In (k : string) (v : value) (o : object) :
  obj_get k o = Some v -> In (k, v) o.
Proof.
  induction o as [| [k0 v0] o IH]; simpl; [discriminate |].
  destruct (String.eqb_spec k k0) as [-> | Hne].
  - intros [= ->]. now left.
  - intros H. right. now apply IH.
Qed.

Lemma obj_get_None (k : string) (o : object) :
  obj_get k o = None <-> ~ In k (Object_keys o).
Proof.
  induction o as [| [k0 v0] o IH]; simpl; [tauto |].
  destruct (String.eqb_spec k k0) as [-> | Hne].
  - split; [discriminate | intros H; exfalso; apply H; now left].
  - rewrite IH. split; [intros H [E | I]; [congruence | tauto] | tauto].
Qed.

Lemma In_obj_get (k : string) (v : value) (o : object) :
  NoDup (Object_keys o) -> In (k, v) o -> obj_get k o = Some v.
Proof.
  induction o as [| [k0 v0] o IH]; simpl; [tauto |].
  intros Hnd [E | I].
  - injection E as -> ->. now rewrite String.eqb_refl.
  - inversion Hnd as [| ? ? Hnot Hnd']; subst.
    destruct (String.eqb_spec k k0) as [-> | Hne].
    + exfalso. apply Hnot. change (In (fst (k0, v)) (map fst o)).
      now apply in_map.
    + now apply IH.
Qed.

Lemma keys_update (k : string) (v : value) (o : object) :
  Object_keys (obj_update k v o) = Object_keys o.
Proof.
  unfold Object_keys. induction o as [| [k0 v0] o IH]; simpl; [reflexivity |].
  destruct (String.eqb_spec k k0) as [-> | Hne]; simpl; congruence.
Qed.

Lemma keys_insert_index (n : N) (k : string) (v : value) (o : object) :
  exists l1 l2,
    Object_keys o = (l1 ++ l2)%list
    /\ Object_keys (obj_insert_index n k v o) = (l1 ++ k :: l2)%list.
Proof.
  unfold Object_keys. induction o as [| [k0 v0] o IH]; simpl.
  - now exists [], [].
  - destruct (array_index k0) as [m |]; [destruct (n <? m)%N |].
    + now exists [], (k0 :: map fst o).
    + destruct IH as (l1 & l2 & H1 & H2).
      exists (k0 :: l1), l2. simpl. now rewrite H1, H2.
    + now exists [], (k0 :: map fst o).
Qed.

Lemma NoDup_keys_set (k : string) (v : value) (o : object) :
  NoDup (Object_keys o) -> NoDup (Object_keys (obj_set k v o)).
Proof.
  intros Hnd. unfold obj_set. destruct (obj_has k o) eqn:H.
  - now rewrite keys_update.
  - assert (Hn : ~ In k (Object_keys o)).
    { apply obj_get_None. unfold obj_has in H. now destruct (obj_get k o). }
    destruct (array_index k) as [n |].
    + destruct (keys_insert_index n k v o) as (l1 & l2 & H1 & H2).
      rewrite H2. rewrite H1 in Hnd, Hn.
      apply NoDup_Add with (a := k) (l := (l1 ++ l2)%list).
      * apply Add_app.
      * split; assumption.
    + unfold Object_keys. rewrite map_app. simpl.
      apply NoDup_Add with (a := k) (l := Object_keys o).
      * pose proof (Add_app k (Object_keys o) []) as HA.
        now rewrite app_nil_r in HA.
      * split; assumption.
Qed.

End ObjectFacts.

(* ================================================================== *)
(** * Properties of the attempt controller *)
(* ================================================================== *)

Import QuizRunner.

(** Unfolds the monad of handlers, not the arithmetic. *)
Ltac run_handler :=
  cbv beta iota zeta delta
    [startQuiz startQuiz_try handleSubmit_begin handleSubmit_settle
     handleTimeUp_begin handleTimeUp_settle handleAnswer click_submit
     bind ret throw lift try_catch finally get modify perform await
     setQuiz setAttemptId setEndTime setAnswers setLoading setSubmitting
     setError exec from st calls fst snd
     quiz attemptId endTime currentQuestion answers loading submitting
     error].

Section QuizRunnerFacts.
Context {P : Platform}.

Lemma TimeClip_valid (z : Z) : valid_time z -> TimeClip (Fin z) = Fin z.
Proof.
  unfold valid_time, TimeClip. intros [H1 H2].
  apply Z.leb_le in H1, H2. now rewrite H1, H2.
Qed.

Lemma toISOString_valid (z : Z) :
  valid_time z ->
  Date_new_toISOString (Fin z) = Normal (Date_toISOString z).
Proof.
  intros H. unfold Date_new_toISOString. now rewrite TimeClip_valid.
Qed.

(** ** The time limit *)

Lemma timeLimitMs_of_integer (n : Z) :
  1 <= n -> timeLimitMs_of (VNum (Fin n)) = Fin (n * 60000).
Proof.
  intros H. unfold timeLimitMs_of, or_else. simpl.
  replace (n =? 0) with false by (symmetry; apply Z.eqb_neq; lia).
  simpl. now rewrite Z.max_r by lia.
Qed.

Lemma timeLimitMs_of_clamped (v : value) :
  clamped_to_one v = true -> timeLimitMs_of v = Fin 60000.
Proof.
  unfold timeLimitMs_of, or_else.
  destruct v as [| | [|] | [n |] | s]; simpl; try reflexivity.
  - intros H. apply Z.leb_le in H.
    destruct (Z.eqb_spec n 0) as [-> | Hn]; simpl; [reflexivity |].
    now rewrite Z.max_l by lia.
  - intros H. now rewrite H.
Qed.

Lemma timeLimitMs_of_lower (v : value) (m : Z) :
  timeLimitMs_of v = Fin m -> 60000 <= m.
Proof.
  unfold timeLimitMs_of.
  destruct (Number (or_else v (VNum (Fin 0)))) as [n |]; simpl;
    [| discriminate].
  intros [= <-]. lia.
Qed.

Lemma tlm2_of_integer (d2 : start_data) (v : value) (n : Z) :
  time_limit_minutes d2 = VNum (Fin n) -> 1 <= n ->
  tlm2_of d2 v = Fin (n * 60000).
Proof.
  intros E H. unfold tlm2_of, or_else. rewrite E. simpl.
  replace (n =? 0) with false by (symmetry; apply Z.eqb_neq; lia).
  simpl. replace (n =? 0) with false by (symmetry; apply Z.eqb_neq; lia).
  simpl. now rewrite Z.max_r by lia.
Qed.

Lemma tlm2_of_fallback (d2 : start_data) (n : Z) :
  truthy (time_limit_minutes d2) = false -> 1 <= n ->
  tlm2_of d2 (VNum (Fin n)) = Fin (n * 60000).
Proof.
  intros E H. unfold tlm2_of, or_else. rewrite E. simpl.
  replace (n =? 0) with false by (symmetry; apply Z.eqb_neq; lia).
  simpl. now rewrite Z.max_r by lia.
Qed.

Lemma truthy_clamped_number (v : value) :
  truthy v = true -> clamped_to_one v = true ->
  exists n, Number v = Fin n /\ n <= 1.
Proof.
  destruct v as [| | [|] | [n |] | s]; simpl; try discriminate.
  - intros _ _. exists 1. split; [reflexivity | lia].
  - intros _ H. apply Z.leb_le in H. now exists n.
  - intros H1 H2. rewrite H2 in H1. discriminate.
Qed.

Lemma tlm2_of_clamped (d2 : start_data) (v : value) :
  clamped_to_one (time_limit_minutes d2) = true ->
  clamped_to_one v = true ->
  tlm2_of d2 v = Fin 60000.
Proof.
  intros Ha Hv. unfold tlm2_of, or_else.
  destruct (truthy (time_limit_minutes d2)) eqn:Ta.
  - rewrite ?Ta.
    destruct (truthy_clamped_number _ Ta Ha) as (n & -> & Hn).
    simpl. now rewrite Z.max_l by lia.
  - destruct (truthy v) eqn:Tv.
    + rewrite ?Tv.
      destruct (truthy_clamped_number _ Tv Hv) as (n & -> & Hn).
      simpl. now rewrite Z.max_l by lia.
    + reflexivity.
Qed.

Lemma tlm2_of_lower (d2 : start_data) (v : value) (m : Z) :
  tlm2_of d2 v = Fin m -> 60000 <= m.
Proof.
  unfold tlm2_of.
  destruct (Number _) as [n |]; simpl; [| discriminate].
  intros [= <-]. lia.
Qed.

(** ** Acquisition *)

(** Lines 45-51 on a start time that is a string: the text is parsed
    with a [Z] appended when it has none, and as it is when that
    fails. *)
Lemma parse_start_time_string (raw : string) (t : Z) :
  Date_parse (if endsWith raw "Z" then raw else raw ++ "Z") = Fin t
  \/ (Date_parse (if endsWith raw "Z" then raw else raw ++ "Z") = NaN
      /\ Date_parse raw = Fin t) ->
  parse_start_time (VStr raw) = Normal (Fin t).
Proof.
  unfold parse_start_time, or_else.
  assert (E : (if truthy (VStr raw) then VStr raw else VStr EmptyString)
              = VStr raw).
  { simpl. destruct (String.eqb_spec raw EmptyString) as [-> | _];
      reflexivity. }
  rewrite E. intros [H | [H1 H2]].
  - now rewrite H.
  - rewrite H1. simpl. now rewrite H2.
Qed.

Lemma TimeClip_beyond (z : Z) : max_time < z -> TimeClip (Fin z) = NaN.
Proof.
  intros H. unfold TimeClip.
  replace (z <=? max_time) with false by (symmetry; apply Z.leb_gt; lia).
  now rewrite andb_false_r.
Qed.

(** A deadline past the range of [Date]: [toISOString] throws, the
    handler reports the generic message and no deadline is stored. *)
Lemma startQuiz_first_beyond e s d1 q t m :
  start1 e = Resolved (Some d1) -> truthy (attempt_id d1) = true ->
  quiz_resp e = Resolved (Some q) ->
  parse_start_time (start_time d1) = Normal (Fin t) ->
  timeLimitMs_of (timeLimitMinutes_of d1 q) = Fin m ->
  now1 e < t + m -> max_time < t + m ->
  startQuiz e (from s)
  = (Normal tt,
     {| st := {| quiz := Some q; attemptId := attempt_id d1;
                 endTime := endTime s;
                 currentQuestion := currentQuestion s;
                 answers := answers s; loading := false;
                 submitting := submitting s;
                 error := "Failed to start quiz. Please try again." |};
        calls := [PostStart; GetQuiz] |}).
Proof.
  intros H1 Ha Hq Ht Hm Hlt Hv. run_handler.
  rewrite H1, Ha, Hq, Ht, Hm. cbn [num_add num_sub num_leb].
  replace (t + m - now1 e <=? 0) with false
    by (symmetry; apply Z.leb_gt; lia).
  unfold Date_new_toISOString. rewrite (TimeClip_beyond _ Hv).
  reflexivity.
Qed.

Lemma startQuiz_first e s d1 q t m :
  start1 e = Resolved (Some d1) -> truthy (attempt_id d1) = true ->
  quiz_resp e = Resolved (Some q) ->
  parse_start_time (start_time d1) = Normal (Fin t) ->
  timeLimitMs_of (timeLimitMinutes_of d1 q) = Fin m ->
  now1 e < t + m -> valid_time (t + m) ->
  startQuiz e (from s)
  = (Normal tt, {| st := acquired s q (attempt_id d1) (t + m);
                   calls := [PostStart; GetQuiz] |}).
Proof.
  intros H1 Ha Hq Ht Hm Hlt Hv. run_handler.
  rewrite H1, Ha, Hq, Ht, Hm. cbn [num_add num_sub num_leb].
  replace (t + m - now1 e <=? 0) with false
    by (symmetry; apply Z.leb_gt; lia).
  rewrite (toISOString_valid _ Hv). reflexivity.
Qed.

Lemma startQuiz_retry e s d1 q t m d2 t2 m2 :
  start1 e = Resolved (Some d1) -> truthy (attempt_id d1) = true ->
  quiz_resp e = Resolved (Some q) ->
  parse_start_time (start_time d1) = Normal (Fin t) ->
  timeLimitMs_of (timeLimitMinutes_of d1 q) = Fin m ->
  t + m <= now1 e ->
  start2 e = Resolved (Some d2) ->
  parse_start_time (start_time d2) = Normal (Fin t2) ->
  tlm2_of d2 (timeLimitMinutes_of d1 q) = Fin m2 ->
  valid_time (t2 + m2) ->
  startQuiz e (from s)
  = (Normal tt, {| st := acquired s q (attempt_id d2) (t2 + m2);
                   calls := [PostStart; GetQuiz; PostStart] |}).
Proof.
  intros H1 Ha Hq Ht Hm Hle H2 Ht2 Hm2 Hv. run_handler.
  rewrite H1, Ha, Hq, Ht, Hm. cbn [num_add num_sub num_leb].
  replace (t + m - now1 e <=? 0) with true
    by (symmetry; apply Z.leb_le; lia).
  rewrite H2, Ht2, Hm2. cbn [num_add].
  rewrite (toISOString_valid _ Hv). reflexivity.
Qed.



(** ** The initial answer set *)

Lemma own_assign_null (k : string) (o : literal) :
  own (assign_null k o) = own o
  \/ own (assign_null k o) = obj_set k VNull (own o).
Proof.
  unfold assign_null. destruct (_ && _); simpl; auto.
Qed.

Lemma fold_add_NoDup (l : list question) (acc : literal) :
  NoDup (Object_keys (own acc)) ->
  NoDup (Object_keys (own (fold_left add_question l acc))).
Proof.
  revert acc. induction l as [| q l IH]; intros acc H; simpl; [assumption |].
  apply IH. unfold add_question.
  destruct (truthy (q_id q)); [| assumption].
  destruct (own_assign_null (ToPropertyKey (q_id q)) acc) as [-> | ->];
    [assumption | now apply NoDup_keys_set].
Qed.

Lemma fold_add_null (l : list question) (acc : literal) :
  (forall k v, obj_get k (own acc) = Some v -> v = VNull) ->
  forall k v, obj_get k (own (fold_left add_question l acc)) = Some v ->
              v = VNull.
Proof.
  revert acc. induction l as [| q l IH]; intros acc H; simpl; [assumption |].
  apply IH. unfold add_question.
  destruct (truthy (q_id q)); [| assumption].
  destruct (own_assign_null (ToPropertyKey (q_id q)) acc) as [-> | ->];
    [assumption |].
  intros k v. destruct (String.eqb_spec k (ToPropertyKey (q_id q))) as [-> | Hne].
  - rewrite obj_get_set_same. now intros [= <-].
  - rewrite obj_get_set_other by assumption. apply H.
Qed.

(** A key other than [__proto__] gets its entry from any assignment to
    it. *)
Lemma obj_has_assign_null (k k' : string) (o : literal) :
  k' <> "__proto__" ->
  obj_has k' (own (assign_null k o)) = true
  <-> k' = k \/ obj_has k' (own o) = true.
Proof.
  intros Hk. unfold assign_null.
  destruct (String.eqb_spec k "__proto__") as [-> | Hne]; simpl.
  - destruct (inherits o && negb (obj_has "__proto__" (own o))); simpl.
    + split; [now right | intros [H | H]; [contradiction | assumption]].
    + apply obj_has_set.
  - apply obj_has_set.
Qed.

Lemma fold_add_has (l : list question) (acc : literal) (k : string) :
  k <> "__proto__" ->
  obj_has k (own (fold_left add_question l acc)) = true <->
  obj_has k (own acc) = true
  \/ exists x, In x l /\ truthy (q_id x) = true
                /\ ToPropertyKey (q_id x) = k.
Proof.
  intros Hk. revert acc. induction l as [| q l IH]; intros acc; simpl.
  - split; [tauto | intros [H | (x & [] & _)]; assumption].
  - rewrite IH. unfold add_question at 1.
    destruct (truthy (q_id q)) eqn:T.
    + rewrite (obj_has_assign_null _ _ _ Hk). split.
      * intros [[-> | H] | (x & Hx & Hr)]; [right | now left | right].
        -- exists q. auto.
        -- exists x. auto.
      * intros [H | (x & [<- | Hx] & Ht & Hk')].
        -- left. now right.
        -- left. left. now symmetry.
        -- right. exists x. auto.
    + split.
      * intros [H | (x & Hx & Hr)]; [now left | right]. exists x. auto.
      * intros [H | (x & [<- | Hx] & Ht & Hk')]; [now left | congruence |].
        right. exists x. auto.
Qed.


Lemma obj_has_keys (k : string) (o : object) :
  obj_has k o = true <-> In k (Object_keys o).
Proof.
  unfold obj_has. pose proof (obj_get_None k o) as H.
  destruct (obj_get k o).
  - split; [intros _ | reflexivity].
    destruct (in_dec string_dec k (Object_keys o)) as [I | N]; [assumption |].
    apply H in N. discriminate.
  - split; [discriminate | intros I]. exfalso. now apply (proj1 H).
Qed.

End QuizRunnerFacts.

(* ================================================================== *)
(** * The deadline computed at acquisition *)
(* ================================================================== *)

(** C8, as the code has it.  The start time [t] is what the runtime
    parses from the [start_time] text of the start response, with a [Z]
    appended when the text has none (and the text as it is when that
    does not parse).  For every such [t] and every integer limit
    [n >= 1] of the start response:
    - when time remains and [t + n * 60000] is a time a [Date] can
      hold, acquisition makes one start request and stores exactly
      [t + n * 60000];
    - when time remains and [t + n * 60000] is past the range of
      [Date], no deadline is stored and the generic error is shown;
    - when no time remains, it makes one more start request and stores
      the deadline [t2 + n2 * 60000] of the retried response, again when
      a [Date] can hold it.
    The timer started on a deadline [D] no more than [max_delay]
    milliseconds ahead keeps its timeout due at [D] whatever display
    ticks the runtime runs. *)
Theorem deadline_is_start_plus_limit {P : Platform} e s d1 q raw t n :
  start1 e = Resolved (Some d1) -> truthy (attempt_id d1) = true ->
  quiz_resp e = Resolved (Some q) ->
  start_time d1 = VStr raw ->
  Date_parse (if endsWith raw "Z" then raw else raw ++ "Z") = Fin t
  \/ (Date_parse (if endsWith raw "Z" then raw else raw ++ "Z") = NaN
      /\ Date_parse raw = Fin t) ->
  time_limit_minutes d1 = VNum (Fin n) -> 1 <= n ->
  (now1 e < t + n * 60000 -> valid_time (t + n * 60000) ->
     endTime (st (exec (startQuiz e) (from s)))
       = Some (Date_toISOString (t + n * 60000))
     /\ start_calls (exec (startQuiz e) (from s)) = [PostStart])
  /\ (now1 e < t + n * 60000 -> max_time < t + n * 60000 ->
       endTime (st (exec (startQuiz e) (from s))) = endTime s
       /\ error (st (exec (startQuiz e) (from s)))
          = "Failed to start quiz. Please try again.")
  /\ (forall d2 raw2 t2 n2,
        t + n * 60000 <= now1 e ->
        start2 e = Resolved (Some d2) ->
        start_time d2 = VStr raw2 ->
        Date_parse (if endsWith raw2 "Z" then raw2 else raw2 ++ "Z")
          = Fin t2 ->
        time_limit_minutes d2 = VNum (Fin n2) -> 1 <= n2 ->
        valid_time (t2 + n2 * 60000) ->
        endTime (st (exec (startQuiz e) (from s)))
          = Some (Date_toISOString (t2 + n2 * 60000))
        /\ start_calls (exec (startQuiz e) (from s))
           = [PostStart; PostStart])
  /\ (forall endTime D now id0 sch x,
        Timer.deadline endTime = Fin D -> now < D ->
        D - now <= Timer.max_delay ->
        forallb Timer.runtime_event sch = true ->
        In x (Timer.pending (Timer.run sch (Timer.start endTime now id0))) ->
        Timer.what x = Timer.Timeout -> Timer.due x = D).
Proof.
  intros H1 Ha Hq Hraw Hparse Hn Hge.
  assert (Ht : parse_start_time (start_time d1) = Normal (Fin t)).
  { rewrite Hraw. now apply parse_start_time_string. }
  assert (Hm : timeLimitMs_of (timeLimitMinutes_of d1 q) = Fin (n * 60000)).
  { unfold timeLimitMinutes_of. rewrite Hn. simpl.
    now apply timeLimitMs_of_integer. }
  split; [| split; [| split]].
  - intros Hlt Hv. unfold exec.
    rewrite (startQuiz_first e s d1 q t (n * 60000)) by assumption.
    split; reflexivity.
  - intros Hlt Hv. unfold exec.
    rewrite (startQuiz_first_beyond e s d1 q t (n * 60000)) by assumption.
    split; reflexivity.
  - intros d2 raw2 t2 n2 Hle H2 Hraw2 Hparse2 Hn2 Hge2 Hv. unfold exec.
    assert (Ht2 : parse_start_time (start_time d2) = Normal (Fin t2)).
    { rewrite Hraw2. apply parse_start_time_string. now left. }
    rewrite (startQuiz_retry e s d1 q t (n * 60000) d2 t2 (n2 * 60000))
      by (try assumption; now apply tlm2_of_integer).
    split; reflexivity.
  - intros endTime D now id0 sch x HD Hlt Hfit Hr Hin Hk.
    pose proof (start_armed endTime D now id0 HD Hlt) as Ha0.
    rewrite due_at_deadline in Ha0 by assumption.
    destruct (run_armed endTime D id0 sch _ Ha0 Hr)
      as [(next & ticks & Hp & _) | (? & ? & _ & _ & _ & Hp & _)];
      rewrite Hp in Hin; simpl in Hin.
    + destruct Hin as [<- | [<- | []]]; [reflexivity | discriminate].
    + destruct Hin.
Qed.

Lemma deadline_is_start_plus_limit_witness :
  endTime (st (exec (startQuiz (P := Iso.platform) Sample.on_time)
                    (from initial_state)))
  = Some "2024-01-01T10:15:00.000Z".
Proof.
  refine (proj1 (proj1
    (deadline_is_start_plus_limit (P := Iso.platform) Sample.on_time
       initial_state (Sample.started (VNum (Fin 15))) Sample.quiz4
       "2024-01-01T10:00:00" Sample.t1000 15
       eq_refl eq_refl eq_refl eq_refl (or_introl eq_refl) eq_refl _) _ _)).
  - lia.
  - reflexivity.
  - unfold valid_time, max_time, Sample.t1000. lia.
Defined.

(** C8 as stated fails for a limit whose deadline no [Date] can hold:
    for the attempt started on 2024-01-01 at 10:00:00 with a limit of
    150000000000 minutes, five minutes in, the sum
    [1704103200000 + 150000000000 * 60000] is past [max_time];
    acquisition stores no deadline and shows the generic error. *)
Lemma deadline_beyond_date_range_not_stored :
  start1 Sample.far_limit
  = Resolved (Some (Sample.started (VNum (Fin 150000000000))))
  /\ Date_parse (Platform := Iso.platform) "2024-01-01T10:00:00Z"
     = Fin 1704103200000
  /\ now1 Sample.far_limit < 1704103200000 + 150000000000 * 60000
  /\ endTime (st (exec (startQuiz (P := Iso.platform) Sample.far_limit)
                       (from initial_state)))
     = None
  /\ error (st (exec (startQuiz (P := Iso.platform) Sample.far_limit)
                     (from initial_state)))
     = "Failed to start quiz. Please try again.".
Proof.
  split; [reflexivity |]. split; [reflexivity |].
  split; [reflexivity |]. split; vm_compute; reflexivity.
Qed.

(** C9, as the code has it.  The limit in force is the start
    response's [time_limit_minutes], or the quiz's when the start
    response has none.  When it is nothing, a boolean, [NaN], the empty
    string or an integer up to 1, the deadline is the start time plus
    60000 ms, on the first start and on the retry alike; on the retry a
    falsy limit of the retried response falls back to the limit of the
    first computation before the clamp.  A limit that is computed is
    never below 60000 ms. *)
Theorem time_limit_clamped_at_one_minute {P : Platform} e s d1 q t :
  start1 e = Resolved (Some d1) -> truthy (attempt_id d1) = true ->
  quiz_resp e = Resolved (Some q) ->
  parse_start_time (start_time d1) = Normal (Fin t) ->
  let limit := timeLimitMinutes_of d1 q in
  limit = match time_limit_minutes d1 with
          | VUndefined | VNull => quiz_time_limit_minutes q
          | v => v
          end
  /\ (clamped_to_one limit = true ->
        (now1 e < t + 60000 -> valid_time (t + 60000) ->
           endTime (st (exec (startQuiz e) (from s)))
           = Some (Date_toISOString (t + 60000)))
        /\ (forall d2 t2,
              t + 60000 <= now1 e ->
              start2 e = Resolved (Some d2) ->
              parse_start_time (start_time d2) = Normal (Fin t2) ->
              clamped_to_one (time_limit_minutes d2) = true ->
              valid_time (t2 + 60000) ->
              endTime (st (exec (startQuiz e) (from s)))
              = Some (Date_toISOString (t2 + 60000))))
  /\ (forall d2 t2 n,
        limit = VNum (Fin n) -> 1 <= n ->
        t + n * 60000 <= now1 e ->
        start2 e = Resolved (Some d2) ->
        parse_start_time (start_time d2) = Normal (Fin t2) ->
        truthy (time_limit_minutes d2) = false ->
        valid_time (t2 + n * 60000) ->
        endTime (st (exec (startQuiz e) (from s)))
        = Some (Date_toISOString (t2 + n * 60000)))
  /\ (forall m, timeLimitMs_of limit = Fin m -> 60000 <= m)
  /\ (forall d2 m2, tlm2_of d2 limit = Fin m2 -> 60000 <= m2).
Proof.
  intros H1 Ha Hq Ht limit.
  split; [| split; [| split; [| split]]].
  - unfold limit, timeLimitMinutes_of, nullish.
    now destruct (time_limit_minutes d1).
  - intros Hc. pose proof (timeLimitMs_of_clamped limit Hc) as Hm. split.
    + intros Hlt Hv. unfold exec.
      now rewrite (startQuiz_first e s d1 q t 60000).
    + intros d2 t2 Hle H2 Ht2 Hc2 Hv. unfold exec.
      rewrite (startQuiz_retry e s d1 q t 60000 d2 t2 60000);
        try assumption; [reflexivity |].
      now apply tlm2_of_clamped.
  - intros d2 t2 n Hl Hn Hle H2 Ht2 Hf Hv. unfold exec.
    rewrite (startQuiz_retry e s d1 q t (n * 60000) d2 t2 (n * 60000));
      try assumption; [reflexivity | |].
    + fold limit. rewrite Hl. now apply timeLimitMs_of_integer.
    + fold limit. rewrite Hl. now apply tlm2_of_fallback.
  - apply timeLimitMs_of_lower.
  - intros d2 m2. apply tlm2_of_lower.
Qed.

Lemma time_limit_clamped_at_one_minute_witness :
  endTime (st (exec (startQuiz (P := Iso.platform) Sample.zero_limit)
                    (from initial_state)))
  = Some "2024-01-01T10:01:00.000Z".
Proof.
  refine (proj1 (proj1 (proj2
    (time_limit_clamped_at_one_minute (P := Iso.platform)
       Sample.zero_limit initial_state (Sample.started (VNum (Fin 0)))
       Sample.quiz4 Sample.t1000 eq_refl eq_refl eq_refl eq_refl))
    eq_refl) _ _).
  - unfold Sample.zero_limit, Sample.t1000. simpl. lia.
  - unfold valid_time, max_time, Sample.t1000. lia.
Defined.

(** C9 as stated fails: the start response carries no limit, yet the
    deadline is fifteen minutes after the start, the limit of the quiz,
    and not one minute after it. *)
Lemma missing_limit_falls_back_to_quiz :
  time_limit_minutes (Sample.started VUndefined) = VUndefined
  /\ endTime (st (exec (startQuiz (P := Iso.platform)
                           Sample.limit_from_quiz)
                       (from initial_state)))
     = Some "2024-01-01T10:15:00.000Z"
  /\ Date_toISOString (Platform := Iso.platform) (Sample.t1000 + 60000)
     = "2024-01-01T10:01:00.000Z".
Proof.
  split; [reflexivity | split; vm_compute; reflexivity].
Qed.

(* ================================================================== *)
(** * Stale-start recovery *)
(* ================================================================== *)

(** C2, as the code has it.  When the first start response leaves no
    time, acquisition makes exactly one more start request.  When the
    retried response leaves no time either, no error is raised:
    acquisition completes with the deadline of the retried response
    stored, although it is past, and nothing is submitted.  The timer
    mounted on that deadline arms no timeout and no interval and never
    calls the expiry callback. *)
Theorem stale_start_retries_once {P : Platform}
    e s d1 q t m d2 t2 m2 :
  start1 e = Resolved (Some d1) -> truthy (attempt_id d1) = true ->
  quiz_resp e = Resolved (Some q) ->
  parse_start_time (start_time d1) = Normal (Fin t) ->
  timeLimitMs_of (timeLimitMinutes_of d1 q) = Fin m ->
  t + m <= now1 e ->
  start2 e = Resolved (Some d2) ->
  parse_start_time (start_time d2) = Normal (Fin t2) ->
  tlm2_of d2 (timeLimitMinutes_of d1 q) = Fin m2 ->
  valid_time (t2 + m2) ->
  t2 + m2 <= now2 e ->
  let w := exec (startQuiz e) (from s) in
  start_calls w = [PostStart; PostStart]
  /\ submit_calls w = []
  /\ error (st w) = ""
  /\ loading (st w) = false
  /\ attemptId (st w) = attempt_id d2
  /\ endTime (st w) = Some (Date_toISOString (t2 + m2))
  /\ (forall now3 id0 sch,
        Timer.deadline (Date_toISOString (t2 + m2)) = Fin (t2 + m2) ->
        now2 e <= now3 ->
        forallb Timer.runtime_event sch = true ->
        Timer.pending
          (Timer.start (Date_toISOString (t2 + m2)) now3 id0) = []
        /\ Timer.expirations
             (Timer.run sch
                (Timer.start (Date_toISOString (t2 + m2)) now3 id0))
           = []).
Proof.
  intros H1 Ha Hq Ht Hm Hle H2 Ht2 Hm2 Hv Hle2 w. subst w. unfold exec.
  rewrite (startQuiz_retry e s d1 q t m d2 t2 m2) by assumption.
  repeat (split; [reflexivity |]).
  intros now3 id0 sch HD Hnow Hr.
  rewrite (start_past _ (t2 + m2) now3 id0 HD) by lia.
  destruct (run_idle sch (Timer.fresh now3 id0) eq_refl Hr) as (_ & Hl & _).
  split; [reflexivity |]. unfold Timer.expirations. now rewrite Hl.
Qed.

Lemma stale_start_retries_once_witness :
  start_calls (exec (startQuiz (P := Iso.platform) Sample.expired_twice)
                    (from initial_state))
  = [PostStart; PostStart].
Proof.
  refine (proj1
    (stale_start_retries_once (P := Iso.platform) Sample.expired_twice
       initial_state (Sample.started (VNum (Fin 15))) Sample.quiz4
       Sample.t1000 900000 (Sample.started (VNum (Fin 15)))
       Sample.t1000 900000
       eq_refl eq_refl eq_refl eq_refl eq_refl _ eq_refl eq_refl eq_refl
       _ _)).
  - unfold Sample.expired_twice, Sample.t1000. simpl. lia.
  - unfold valid_time, max_time, Sample.t1000. lia.
  - unfold Sample.expired_twice, Sample.t1000. simpl. lia.
Defined.

(** C2 as stated fails: both start responses describe an attempt that
    ended five minutes ago, and acquisition ends without an error, the
    past deadline stored. *)
Lemma expired_twice_raises_no_error :
  start_calls (exec (startQuiz (P := Iso.platform) Sample.expired_twice)
                    (from initial_state))
  = [PostStart; PostStart]
  /\ error (st (exec (startQuiz (P := Iso.platform) Sample.expired_twice)
                     (from initial_state))) = ""
  /\ endTime (st (exec (startQuiz (P := Iso.platform)
                          Sample.expired_twice)
                       (from initial_state)))
     = Some "2024-01-01T10:15:00.000Z"
  /\ Date_parse (Platform := Iso.platform) "2024-01-01T10:15:00.000Z"
     = Fin (now2 Sample.expired_twice - 300005).
Proof.
  repeat split; vm_compute; reflexivity.
Qed.

(* ================================================================== *)
(** * The answer set after acquisition *)
(* ================================================================== *)




(* ================================================================== *)
(** * Submission *)
(* ================================================================== *)

Lemma length_unansweredQuestions (qs : list question) (a : object) :
  length (unansweredQuestions qs a) = count_unanswered qs a.
Proof.
  unfold unansweredQuestions.
  induction qs as [| q qs IH]; simpl; [reflexivity |].
  destruct (obj_read (ToPropertyKey (q_id q)) a); simpl; congruence.
Qed.

Lemma count_unanswered_positive (qs : list question) (a : object) :
  (exists x, In x qs /\ obj_read (ToPropertyKey (q_id x)) a = VNull) ->
  (1 <= count_unanswered qs a)%nat.
Proof.
  intros (x & Hin & Hx). induction qs as [| q qs IH]; simpl in *; [tauto |].
  destruct Hin as [-> | Hin].
  - rewrite Hx. lia.
  - specialize (IH Hin).
    destruct (obj_read (ToPropertyKey (q_id q)) a); lia.
Qed.

Lemma count_unanswered_le (qs : list question) (a : object) :
  (count_unanswered qs a <= length qs)%nat.
Proof.
  induction qs as [| q qs IH]; simpl; [lia |].
  destruct (obj_read (ToPropertyKey (q_id q)) a); lia.
Qed.

(** The decimal text of a count determines the count, also between
    the fixed words of the report. *)
Lemma to_uint_not_Nil (n : nat) : Nat.to_uint n <> Nil.
Proof.
  intros H. pose proof (DecimalNat.Unsigned.to_of (Nat.to_uint n)) as E.
  rewrite DecimalNat.Unsigned.of_to, H in E. discriminate E.
Qed.

Lemma decimal_text_inj (m n : nat) :
  NilZero.string_of_uint (Nat.to_uint m)
  = NilZero.string_of_uint (Nat.to_uint n) -> m = n.
Proof.
  intros H. apply (f_equal NilZero.uint_of_string) in H.
  rewrite !NilZero.usu in H by apply to_uint_not_Nil.
  injection H as H. now apply DecimalNat.Unsigned.to_uint_inj.
Qed.

Lemma list_ascii_of_string_app (a b : string) :
  list_ascii_of_string (a ++ b)
  = (list_ascii_of_string a ++ list_ascii_of_string b)%list.
Proof.
  induction a as [| c a IH]; simpl; [reflexivity | now rewrite IH].
Qed.

Lemma append_inv_tail (a b suffix : string) :
  (a ++ suffix = b ++ suffix)%string -> a = b.
Proof.
  intros H. apply (f_equal list_ascii_of_string) in H.
  rewrite !list_ascii_of_string_app in H. apply app_inv_tail in H.
  rewrite <- (string_of_list_ascii_of_string a),
          <- (string_of_list_ascii_of_string b).
  now rewrite H.
Qed.

Lemma append_inv_head (prefix a b : string) :
  (prefix ++ a = prefix ++ b)%string -> a = b.
Proof.
  induction prefix as [| c prefix IH]; simpl; [tauto |].
  intros H. injection H as H. now apply IH.
Qed.

Lemma remaining_text_inj (m n : nat) :
  ("Please answer all questions before submitting. "
   ++ NilZero.string_of_uint (Nat.to_uint m) ++ " question(s) remaining."
   = "Please answer all questions before submitting. "
     ++ NilZero.string_of_uint (Nat.to_uint n)
     ++ " question(s) remaining.")%string ->
  m = n.
Proof.
  intros H. apply append_inv_head, append_inv_tail in H.
  now apply decimal_text_inj.
Qed.

(** C3.  For every answer set in which a question of the quiz has a
    null answer, a manual submit makes no call to the outside at all
    (no network request, not even the confirmation dialog), leaves every
    state cell but the error message as it was, and the message is the
    fixed text around the decimal numeral of [n], the number of
    questions whose answer is null: it reads as the report of [n] and of
    no other number. *)
Theorem manual_submit_blocked_when_unanswered s q qs confirmed :
  quiz s = Some q -> questions q = Some qs ->
  (exists x, In x qs
             /\ obj_read (ToPropertyKey (q_id x)) (answers s) = VNull) ->
  let n := count_unanswered qs (answers s) in
  (1 <= n <= length qs)%nat
  /\ n = length (filter (fun x =>
                           match obj_read (ToPropertyKey (q_id x))
                                          (answers s) with
                           | VNull => true
                           | _ => false
                           end) qs)
  /\ handleSubmit_begin confirmed (from s)
     = (Normal false,
        {| st := {| quiz := quiz s; attemptId := attemptId s;
                    endTime := endTime s;
                    currentQuestion := currentQuestion s;
                    answers := answers s; loading := loading s;
                    submitting := submitting s;
                    error :=
                      "Please answer all questions before submitting. "
                      ++ NilZero.string_of_uint (Nat.to_uint n)
                      ++ " question(s) remaining." |};
           calls := [] |})
  /\ (forall m : nat,
        error (st (exec (handleSubmit_begin confirmed) (from s)))
        = "Please answer all questions before submitting. "
          ++ NilZero.string_of_uint (Nat.to_uint m)
          ++ " question(s) remaining." ->
        m = n).
Proof.
  intros Hq Hqs Hex n.
  pose proof (count_unanswered_positive qs (answers s) Hex) as Hpos.
  pose proof (count_unanswered_le qs (answers s)) as Hle.
  split; [subst n; lia |].
  split.
  { subst n. clear. induction qs as [| x qs IH]; simpl; [reflexivity |].
    destruct (obj_read (ToPropertyKey (q_id x)) (answers s)); simpl;
      congruence. }
  assert (Hlt : (0 <? length (unansweredQuestions qs (answers s)))%nat
                = true).
  { rewrite length_unansweredQuestions. apply Nat.ltb_lt. lia. }
  assert (Hrun : handleSubmit_begin confirmed (from s)
                 = (Normal false,
                    {| st := {| quiz := quiz s; attemptId := attemptId s;
                                endTime := endTime s;
                                currentQuestion := currentQuestion s;
                                answers := answers s; loading := loading s;
                                submitting := submitting s;
                                error :=
                                  "Please answer all questions before submitting. "
                                  ++ NilZero.string_of_uint (Nat.to_uint n)
                                  ++ " question(s) remaining." |};
                       calls := [] |})).
  { subst n. rewrite <- length_unansweredQuestions.
    destruct s as [qz aid et cq ans ld sub err]. simpl in *. subst qz.
    run_handler. rewrite Hqs, Hlt. reflexivity. }
  split; [exact Hrun |].
  intros m. unfold exec. rewrite Hrun. cbn [snd st error].
  intros H. symmetry. now apply remaining_text_inj.
Qed.

(** With one answer of four missing the report says 1, with all four
    missing it says 4. *)
Lemma manual_submit_blocked_when_unanswered_witness :
  handleSubmit_begin true (from (Sample.running Sample.three_of_four))
  = (Normal false,
     {| st := {| quiz := Some Sample.quiz4; attemptId := VNum (Fin 7);
                 endTime := Some "2024-01-01T10:15:00.000Z";
                 currentQuestion := 3%nat;
                 answers := Sample.three_of_four; loading := false;
                 submitting := false;
                 error := "Please answer all questions before submitting. 1 question(s) remaining." |};
        calls := [] |})
  /\ error (st (snd (handleSubmit_begin false
                       (from (Sample.running Sample.none_of_four)))))
     = "Please answer all questions before submitting. 4 question(s) remaining.".
Proof.
  split.
  - refine (proj1 (proj2 (proj2
      (manual_submit_blocked_when_unanswered
         (Sample.running Sample.three_of_four) Sample.quiz4
         [Sample.ask (VNum (Fin 1)); Sample.ask (VNum (Fin 2));
          Sample.ask (VNum (Fin 3)); Sample.ask (VNum (Fin 4))]
         true eq_refl eq_refl _)))).
    exists (Sample.ask (VNum (Fin 4))). split; [| reflexivity].
    simpl. tauto.
  - refine (f_equal (fun r => error (st (snd r)))
      (proj1 (proj2 (proj2
        (manual_submit_blocked_when_unanswered
           (Sample.running Sample.none_of_four) Sample.quiz4
           [Sample.ask (VNum (Fin 1)); Sample.ask (VNum (Fin 2));
            Sample.ask (VNum (Fin 3)); Sample.ask (VNum (Fin 4))]
           false eq_refl eq_refl _))))).
    exists (Sample.ask (VNum (Fin 1))). split; [| reflexivity].
    simpl. tauto.
Defined.

(** C4.  For every answer set, a submit on expiry that finds the
    in-flight flag clear raises the flag, clears the error, shows the
    alert and issues one network call for the current attempt.  Its
    payload lists, in the order of the answer set, exactly the entries
    whose answer is not null: an entry is in the payload if and only if
    it is in the answer set with a non-null answer.  With nothing
    answered the call is still made, with the empty list. *)
Theorem timeout_submit_sends_answered s :
  submitting s = false ->
  let payload := format_answered (answers s) in
  handleTimeUp_begin (from s)
  = (Normal true,
     {| st := {| quiz := quiz s; attemptId := attemptId s;
                 endTime := endTime s;
                 currentQuestion := currentQuestion s;
                 answers := answers s; loading := loading s;
                 submitting := true; error := "" |};
        calls := [Alert; PostSubmit (attemptId s) payload] |})
  /\ (forall k v,
        In (k, v) payload <->
        In (k, v) (Object_entries (answers s)) /\ v <> VNull)
  /\ (NoDup (Object_keys (answers s)) ->
      forall k v,
        In (k, v) payload <->
        obj_get k (answers s) = Some v /\ v <> VNull)
  /\ ((forall k v, In (k, v) (Object_entries (answers s)) -> v = VNull) ->
      payload = []).
Proof.
  intros Hs payload.
  assert (Hin : forall k v,
             In (k, v) payload <->
             In (k, v) (Object_entries (answers s)) /\ v <> VNull).
  { intros k v. subst payload. unfold format_answered, Object_entries.
    rewrite in_map_iff. split.
    - intros ([k' v'] & [= -> ->] & H). apply filter_In in H as [H1 H2].
      split; [assumption |]. now destruct v.
    - intros [H1 H2]. exists (k, v). split; [reflexivity |].
      apply filter_In. split; [assumption |]. now destruct v. }
  split; [| split; [exact Hin | split]].
  - destruct s as [qz aid et cq ans ld sub err]. simpl in *. subst sub.
    reflexivity.
  - intros Hnd k v. rewrite Hin. split; intros [H1 H2]; split; trivial.
    + now apply In_obj_get.
    + now apply obj_get_In.
  - intros Hall. destruct payload as [| [k v] l] eqn:E; [reflexivity |].
    exfalso. destruct (proj1 (Hin k v)) as [H1 H2]; [now left |].
    apply H2. now apply (Hall k).
Qed.

Lemma timeout_submit_sends_answered_witness :
  calls (exec handleTimeUp_begin
              (from (Sample.running Sample.three_of_four)))
  = [Alert;
     PostSubmit (VNum (Fin 7))
       [("1", VNum (Fin 0)); ("2", VNum (Fin 2)); ("3", VNum (Fin 1))]]
  /\ calls (exec handleTimeUp_begin
                 (from (Sample.running Sample.none_of_four)))
     = [Alert; PostSubmit (VNum (Fin 7)) []].
Proof.
  split.
  - unfold exec.
    rewrite (proj1 (timeout_submit_sends_answered
                      (Sample.running Sample.three_of_four) eq_refl)).
    reflexivity.
  - unfold exec.
    rewrite (proj1 (timeout_submit_sends_answered
                      (Sample.running Sample.none_of_four) eq_refl)).
    reflexivity.
Defined.

(** ** The in-flight flag *)



(** [handleSubmit] itself never reads the flag: with every question
    answered and the dialog confirmed it posts, whatever [submitting]
    holds.  What keeps it from running twice is the button that calls
    it. *)
Lemma handleSubmit_ignores_flag (w : world) q qs :
  quiz (st w) = Some q -> questions q = Some qs ->
  unansweredQuestions qs (answers (st w)) = [] ->
  calls (exec (handleSubmit_begin true) w)
  = (calls w
     ++ [Confirm; PostSubmit (attemptId (st w)) (format_all (answers (st w)))])%list.
Proof.
  intros Hq Hqs Hu. destruct w as [[qz aid et cq ans ld sub err] cs].
  simpl in *. subst qz. run_handler. rewrite Hqs, Hu. simpl.
  now rewrite <- app_assoc.
Qed.





(** A request that fails lowers the flag again and reports the failure;
    one that succeeds stores the result and leaves the flag raised. *)
Lemma settle_failure_reopens (detail : option string) (w : world) :
  submitting (st (exec (handleSubmit_settle (Rejected detail)) w)) = false
  /\ submitting (st (exec (handleTimeUp_settle (Rejected detail)) w))
     = false
  /\ error (st (exec (handleTimeUp_settle (Rejected detail)) w))
     = error_message (AxiosError detail) "Failed to auto-submit quiz."
  /\ calls (exec (handleTimeUp_settle (Rejected detail)) w) = calls w.
Proof. repeat split. Qed.

Lemma settle_success_keeps_flag (d : result_data) (w : world) :
  st (exec (handleTimeUp_settle (Resolved (Some d))) w) = st w
  /\ calls (exec (handleTimeUp_settle (Resolved (Some d))) w)
     = (calls w ++ [StoreResult; Navigate (result_id d)])%list.
Proof.
  split; [reflexivity |]. run_handler. now rewrite <- app_assoc.
Qed.

(** ** What the render function mounts *)

(** After acquisition the timer is mounted on the stored deadline; the
    message of a blocked manual submit, like any error, replaces the
    quiz view and unmounts it. *)
Lemma rendered_timer_acquired {P : Platform} s q qs x a dl :
  questions q = Some qs -> nth_error qs (currentQuestion s) = Some x ->
  Date_toISOString dl <> "" ->
  rendered_timer (acquired s q a dl) = Some (Date_toISOString dl).
Proof.
  intros Hqs Hx H. unfold rendered_timer, acquired. simpl.
  rewrite Hqs, Hx. apply String.eqb_neq in H. now rewrite H.
Qed.

(** A quiz without a question to show mounts no timer. *)
Lemma rendered_timer_no_question (s : state) q :
  quiz s = Some q ->
  match questions q with
  | Some qs => nth_error qs (currentQuestion s) = None
  | None => True
  end ->
  rendered_timer s = None.
Proof.
  intros Hq H. unfold rendered_timer. rewrite Hq.
  destruct (loading s); [reflexivity |].
  destruct (negb _); [reflexivity |].
  destruct (questions q) as [qs |]; [| reflexivity].
  now rewrite H.
Qed.

Lemma rendered_timer_error (s : state) :
  error s <> "" -> rendered_timer s = None.
Proof.
  intros H. unfold rendered_timer. apply String.eqb_neq in H.
  rewrite H. now destruct (loading s).
Qed.

(* ================================================================== *)
(** * Further properties of the deadline timer *)
(* ================================================================== *)

Section TimerDisplay.
Context {P : Platform}.

Lemma two_digits_nat (n : nat) :
  (n < 100)%nat ->
  exists a b,
    padStart0 (String_of_num (Fin (Z.of_nat n))) 2
    = String a (String b EmptyString).
Proof.
  intros H.
  do 100 (destruct n as [| n]; [eexists; eexists; reflexivity |]).
  lia.
Qed.

Lemma two_digits (z : Z) :
  0 <= z < 100 ->
  exists a b,
    padStart0 (String_of_num (Fin z)) 2 = String a (String b EmptyString).
Proof.
  intros H. rewrite <- (Z2Nat.id z) by lia. apply two_digits_nat. lia.
Qed.

(** What the runtime can do to an armed timer with one event. *)
Lemma fire_armed endTime D id0 w i :
  armed endTime D id0 w ->
  fire i w = w
  \/ (i = id0 /\ D <= clock w
      /\ fire i w = observe (Expired (clock w))
                      (setTimeLeft (Fin 0) (set_pending [] w)))
  \/ (i = Pos.succ id0
      /\ fire i w
         = observe (DisplayTick (clock w))
             (setTimeLeft (floor_div (calculateTimeLeft endTime w) 1000)
                (set_pending
                   [ {| id := id0; due := D; what := Timeout |};
                     {| id := Pos.succ id0; due := clock w + 1000;
                        what := Interval endTime |} ] w))).
Proof.
  intros (next & ticks & Hp & Hto & Hiv & Hl & Hn).
  assert (E01 : Pos.eqb id0 (Pos.succ id0) = false)
    by (apply Pos.eqb_neq; lia).
  unfold fire. rewrite Hp. cbn [find_timer id].
  destruct (Pos.eqb_spec id0 i) as [<- | Hi0].
  - cbn [due what]. destruct (Z.leb_spec D (clock w)) as [Hdue | Hnot];
      [| now left].
    right. left. repeat split; [assumption |].
    unfold on_timeout, clearTimer, clear_ref, setTimeLeft, set_pending.
    cbn. rewrite Hp, Hiv. cbn.
    rewrite Pos.eqb_refl, succ_eqb_self. cbn.
    unfold clearTimer, set_pending. cbn. now rewrite Pos.eqb_refl.
  - destruct (Pos.eqb_spec (Pos.succ id0) i) as [<- | Hi1]; [| now left].
    cbn [due what]. destruct (next <=? clock w); [| now left].
    right. right. split; [reflexivity |].
    cbn [map id]. rewrite E01, Pos.eqb_refl. reflexivity.
Qed.

End TimerDisplay.

Section TimerCountdown.
Context {P : Platform}.

Lemma calculateTimeLeft_valid endTime D w :
  deadline endTime = Fin D ->
  calculateTimeLeft endTime w = Fin (Z.max 0 (D - clock w)).
Proof.
  unfold deadline, calculateTimeLeft. intros ->. reflexivity.
Qed.

Lemma start_shows endTime D now id0 :
  deadline endTime = Fin D -> now < D ->
  shows endTime D (now + runtime_delay (D - now)) id0 now
        (start endTime now id0).
Proof.
  intros HD Hlt. split.
  - rewrite (start_future endTime D) by assumption. simpl. lia.
  - left. split; [now apply start_armed |].
    rewrite (start_future endTime D) by assumption. simpl.
    now rewrite Z.max_r by lia.
Qed.

Lemma step_shows endTime D d id0 c w e :
  deadline endTime = Fin D ->
  shows endTime D d id0 c w -> runtime_event e = true ->
  exists c', c <= c' /\ shows endTime D d id0 c' (step w e).
Proof.
  intros HD (Hc & [[Ha Ht] | [Hs Ht]]) He.
  - destruct e as [x | i | s | ]; try discriminate.
    + exists c. split; [lia |]. split; [simpl; lia |]. left.
      split; [| exact Ht].
      destruct Ha as (next & ticks & Ha). exists next, ticks. exact Ha.
    + pose proof Ha as (next & ticks & Hp & Hto & Hiv & Hl & Hn).
      destruct (fire_armed endTime d id0 w i Ha)
        as [Hf | [(-> & Hdue & Hf) | (-> & Hf)]]; simpl; rewrite Hf.
      * exists c. split; [lia |]. split; [assumption |]. left. now split.
      * exists c. split; [lia |]. split; [simpl; assumption |]. right.
        split; [| reflexivity].
        exists (clock w), ticks. simpl. rewrite Hl.
        repeat split; try assumption; lia.
      * exists (clock w). split; [lia |]. split; [simpl; lia |]. left.
        split.
        -- exists (clock w + 1000), (clock w :: ticks). simpl. rewrite Hl.
           repeat split; assumption.
        -- simpl. now rewrite (calculateTimeLeft_valid endTime D w HD).
  - destruct Hs as (t & ticks & Hdt & Htc & Hl & Hp & Hn).
    destruct (step_idle w e Hp He) as (Hp' & Hl' & Ht' & Hn' & Hc').
    exists c. split; [lia |]. split; [lia |]. right.
    split; [| congruence].
    exists t, ticks. repeat split; try congruence; lia.
Qed.

Lemma run_shows endTime D d id0 sch c w :
  deadline endTime = Fin D ->
  shows endTime D d id0 c w -> forallb runtime_event sch = true ->
  exists c', c <= c' /\ shows endTime D d id0 c' (run sch w).
Proof.
  intros HD. revert c w. induction sch as [| e sch IH]; intros c w Hs Hr.
  - exists c. split; [lia | assumption].
  - simpl in Hr. apply andb_true_iff in Hr as [He Hr]. rewrite run_cons.
    destruct (step_shows endTime D d id0 c w e HD Hs He) as (c1 & Hc1 & Hs1).
    destruct (IH c1 _ Hs1 Hr) as (c2 & Hc2 & Hs2).
    exists c2. split; [lia | assumption].
Qed.

(** A timer that has run its timeout stays in that shape. *)
Lemma spent_not_armed endTime d id0 w :
  spent d id0 w -> armed endTime d id0 w -> False.
Proof.
  intros (t & ticks & _ & _ & _ & Hp & _) (next & ticks' & Hp' & _).
  rewrite Hp in Hp'. discriminate.
Qed.

End TimerCountdown.

(** X1.  The clock splits the seconds left [t] into [t / 60] minutes
    and [t mod 60] seconds, and its colour depends on [t] alone: red up
    to 30 seconds, yellow from 31 to 119, green from two minutes on. *)
Theorem display_colour_by_seconds_left (w : Timer.world) (t : Z) :
  timeLeft w = Fin t -> 0 <= t ->
  exists m s,
    minutes w = Fin m /\ seconds w = Fin s
    /\ t = 60 * m + s /\ 0 <= s < 60 /\ 0 <= m
    /\ (colorClass w = "bg-red-100 text-red-800 animate-pulse" <-> t <= 30)
    /\ (colorClass w = "bg-yellow-100 text-yellow-800" <-> 30 < t < 120)
    /\ (colorClass w = "bg-green-100 text-green-800" <-> 120 <= t).
Proof.
  intros Ht H0. exists (t / 60), (t mod 60).
  pose proof (Z.div_mod t 60 ltac:(lia)) as Hdm.
  pose proof (Z.mod_pos_bound t 60 ltac:(lia)) as Hb.
  assert (Hm : 0 <= t / 60) by (apply Z.div_pos; lia).
  unfold colorClass, minutes, seconds. rewrite Ht. cbn [floor_div num_rem].
  rewrite Z.rem_mod_nonneg by lia.
  cbn [num_eqb num_leb num_ltb].
  repeat (split; [reflexivity || lia |]).
  destruct (Z.eqb_spec (t / 60) 0) as [E | E];
    destruct (Z.leb_spec (t mod 60) 30) as [L | L];
    destruct (Z.ltb_spec (t / 60) 2) as [M | M]; cbn [andb];
    (split; [| split]);
    (split; intros Hx;
     [ try discriminate Hx; lia | first [reflexivity | exfalso; lia] ]).
Qed.

Lemma display_colour_by_seconds_left_witness :
  colorClass (Timer.start (P := Iso.platform) "2024-01-01T10:00:00.000Z"
                1704103100000 1)
  = "bg-yellow-100 text-yellow-800".
Proof.
  destruct (display_colour_by_seconds_left
              (Timer.start (P := Iso.platform) "2024-01-01T10:00:00.000Z"
                 1704103100000 1) 100 eq_refl ltac:(lia))
    as (m & s & _ & _ & _ & _ & _ & _ & Hy & _).
  apply Hy. lia.
Defined.

(** X2.  Below one hundred minutes the clock text is always five
    characters: two for the minutes, a colon, two for the seconds. *)
Theorem clock_text_is_mm_ss (w : Timer.world) (t : Z) :
  timeLeft w = Fin t -> 0 <= t < 6000 ->
  exists a b c d,
    clock_text w
    = String a (String b (String ":" (String c (String d EmptyString)))).
Proof.
  intros Ht Hr. unfold clock_text, minutes, seconds. rewrite Ht.
  cbn [floor_div num_rem]. rewrite Z.rem_mod_nonneg by lia.
  pose proof (Z.mod_pos_bound t 60 ltac:(lia)) as Hb.
  assert (Hm : 0 <= t / 60 < 100).
  { split; [apply Z.div_pos; lia | apply Z.div_lt_upper_bound; lia]. }
  destruct (two_digits (t / 60) Hm) as (a & b & ->).
  destruct (two_digits (t mod 60) ltac:(lia)) as (c & d & ->).
  now exists a, b, c, d.
Qed.

Lemma clock_text_is_mm_ss_witness :
  exists a b c d,
    clock_text (Timer.start (P := Iso.platform)
                  "2024-01-01T10:00:00.000Z" 1704103100000 1)
    = String a (String b (String ":" (String c (String d EmptyString)))).
Proof.
  exact (clock_text_is_mm_ss
           (Timer.start (P := Iso.platform) "2024-01-01T10:00:00.000Z"
              1704103100000 1) 100 eq_refl ltac:(lia)).
Defined.

(** X3.  While a timer started before its deadline runs, the seconds it
    displays never go up and never below zero: whatever the runtime
    does after a schedule, the display then is at most the display
    before, and it starts from the whole seconds left at the start. *)
Theorem countdown_never_increases {P : Platform}
    endTime D now id0 sch1 sch2 :
  deadline endTime = Fin D -> now < D ->
  forallb runtime_event sch1 = true ->
  forallb runtime_event sch2 = true ->
  exists k1 k2,
    timeLeft (Timer.run sch1 (Timer.start endTime now id0)) = Fin k1
    /\ timeLeft (Timer.run (sch1 ++ sch2) (Timer.start endTime now id0))
       = Fin k2
    /\ 0 <= k2 <= k1 /\ k1 <= (D - now) / 1000.
Proof.
  intros HD Hlt H1 H2.
  set (d := now + runtime_delay (D - now)).
  destruct (run_shows endTime D d id0 sch1 now _ HD
              (start_shows endTime D now id0 HD Hlt) H1)
    as (c1 & Hc1 & Hcl1 & Hs1).
  assert (H0 : 0 <= (D - now) / 1000) by (apply Z.div_pos; lia).
  destruct Hs1 as [[Ha1 T1] | [Hs1 T1]].
  - assert (Sh1 : shows endTime D d id0 c1
                    (Timer.run sch1 (Timer.start endTime now id0))).
    { split; [exact Hcl1 | left; now split]. }
    destruct (run_shows endTime D d id0 sch2 c1 _ HD Sh1 H2)
      as (c2 & Hc2 & _ & Hs2).
    rewrite <- run_app in Hs2.
    exists (Z.max 0 (D - c1) / 1000).
    destruct Hs2 as [[_ T2] | [_ T2]].
    + exists (Z.max 0 (D - c2) / 1000).
      repeat split; try assumption.
      * apply Z.div_pos; lia.
      * apply Z.div_le_mono; lia.
      * apply Z.div_le_mono; lia.
    + exists 0. repeat split; try assumption.
      * lia.
      * apply Z.div_pos; lia.
      * apply Z.div_le_mono; lia.
  - destruct (run_spent d id0 sch2 _ Hs1 H2) as [Hs2 Hl2].
    rewrite <- run_app in Hs2.
    assert (T2 : timeLeft (Timer.run (sch1 ++ sch2)
                             (Timer.start endTime now id0)) = Fin 0).
    { rewrite run_app.
      destruct Hs1 as (t & ticks & _ & _ & _ & Hp & _).
      destruct (run_idle sch2 _ Hp H2) as (_ & _ & Ht & _). congruence. }
    exists 0, 0. repeat split; try assumption; lia.
Qed.

Lemma countdown_never_increases_witness :
  exists k1 k2,
    timeLeft (Timer.run (P := Iso.platform) [Advance 2500; Fire 2]
                (Timer.start (P := Iso.platform)
                   "2024-01-01T10:00:00.000Z" 1704103100000 1))
    = Fin k1
    /\ timeLeft (Timer.run (P := Iso.platform)
                   ([Advance 2500; Fire 2] ++ [Advance 1000; Fire 2])
                   (Timer.start (P := Iso.platform)
                      "2024-01-01T10:00:00.000Z" 1704103100000 1))
       = Fin k2
    /\ 0 <= k2 <= k1 /\ k1 <= (1704103200000 - 1704103100000) / 1000.
Proof.
  exact (countdown_never_increases (P := Iso.platform)
           "2024-01-01T10:00:00.000Z" 1704103200000 1704103100000 1
           [Advance 2500; Fire 2] [Advance 1000; Fire 2]
           eq_refl eq_refl eq_refl eq_refl).
Defined.

Section TimerLifecycle.
Context {P : Platform}.

Lemma clear_ref_log (r : option positive) (w : Timer.world) :
  Timer.log (clear_ref r w) = Timer.log w.
Proof. now destruct r. Qed.

Lemma cleanup_frame (w : Timer.world) :
  Timer.log (cleanup w) = Timer.log w
  /\ clock (cleanup w) = clock w
  /\ next_id (cleanup w) = next_id w
  /\ (pending w = [] -> pending (cleanup w) = []).
Proof.
  unfold cleanup.
  destruct (clear_ref_frame (intervalRef w) w) as (C1 & N1 & P1).
  destruct (clear_ref_frame (timeoutRef (clear_ref (intervalRef w) w))
              (clear_ref (intervalRef w) w)) as (C2 & N2 & P2).
  rewrite !clear_ref_log. repeat split; try congruence. auto.
Qed.

Lemma reachable endTime D now id0 sch :
  deadline endTime = Fin D -> now < D ->
  forallb runtime_event sch = true ->
  armed endTime (now + runtime_delay (D - now)) id0
        (Timer.run sch (Timer.start endTime now id0))
  \/ spent (now + runtime_delay (D - now)) id0
           (Timer.run sch (Timer.start endTime now id0)).
Proof.
  intros HD Hlt Hr. apply run_armed; [now apply start_armed | assumption].
Qed.

Lemma cleanup_reachable endTime D id0 w :
  armed endTime D id0 w \/ spent D id0 w ->
  pending (cleanup w) = [] /\ Timer.log (cleanup w) = Timer.log w.
Proof.
  intros [Ha | (t & ticks & _ & _ & _ & Hp & _)].
  - now apply (cleanup_armed endTime D id0).
  - destruct (cleanup_frame w) as (L & _ & _ & E). auto.
Qed.

(** The effect run on a deadline that is not ahead arms nothing. *)
Lemma effect_past endTime D w :
  pending w = [] -> deadline endTime = Fin D -> D <= clock w ->
  pending (effect endTime w) = []
  /\ Timer.log (effect endTime w) = Timer.log w.
Proof.
  intros Hp HD Hle. unfold effect.
  set (w0 := clear_ref (intervalRef w) w).
  set (w1 := clear_ref (timeoutRef w0) w0).
  destruct (clear_ref_frame (intervalRef w) w) as (C1 & _ & P1).
  destruct (clear_ref_frame (timeoutRef w0) w0) as (C2 & _ & P2).
  fold w0 in C1, P1. fold w1 in C2, P2.
  rewrite (calculateTimeLeft_past endTime D) by (assumption || lia).
  simpl. split; [auto |]. subst w1 w0. now rewrite !clear_ref_log.
Qed.

(** The effect run again on a deadline ahead leaves a freshly armed
    timer, whatever was armed before. *)
Lemma rerun_armed endTime D id0 w endTime' D' :
  armed endTime D id0 w ->
  deadline endTime' = Fin D' -> clock w < D' ->
  armed endTime' (clock w + runtime_delay (D' - clock w)) (next_id w)
        (step w (Rerun endTime')).
Proof.
  intros (next & ticks & Hp & Hto & Hiv & Hl & Hn) HD Hlt.
  destruct w as [ck nid pd tl tr ir lg]. simpl in *. subst pd tr ir lg.
  assert (E01 : Pos.eqb id0 (Pos.succ id0) = false)
    by (apply Pos.eqb_neq; lia).
  unfold effect, cleanup, clear_ref, clearTimer, set_pending. cbn.
  rewrite !E01, !Pos.eqb_refl. cbn. rewrite !Pos.eqb_refl. cbn.
  unfold calculateTimeLeft. fold (deadline endTime'). rewrite HD. cbn.
  replace (0 <? Z.max 0 (D' - ck)) with true
    by (symmetry; apply Z.ltb_lt; lia).
  cbn. exists (ck + 1000), ticks. cbn.
  rewrite Z.max_r by lia. repeat split.
Qed.

End TimerLifecycle.

(** X4.  Unmounting the component cancels both timers: from then on
    nothing is armed, the expiry callback is not called again and the
    display is not updated again, whenever the unmount happens.  A
    timer unmounted before its expiry never expires. *)
Theorem unmount_stops_timer {P : Platform}
    endTime D now id0 sch1 sch2 :
  deadline endTime = Fin D -> now < D ->
  forallb runtime_event sch1 = true ->
  forallb runtime_event sch2 = true ->
  let w1 := Timer.run sch1 (Timer.start endTime now id0) in
  let w := Timer.run (sch1 ++ Unmount :: sch2)
                     (Timer.start endTime now id0) in
  pending w = []
  /\ expirations w = expirations w1
  /\ updates w = updates w1.
Proof.
  intros HD Hlt H1 H2 w1 w. subst w. rewrite run_app, run_cons. fold w1.
  destruct (cleanup_reachable endTime _ id0 w1
              (reachable endTime D now id0 sch1 HD Hlt H1)) as [Hp Hl].
  destruct (run_idle sch2 (cleanup w1) Hp H2) as (Hp' & Hl' & _).
  simpl. unfold expirations, updates.
  rewrite Hl', Hl. auto.
Qed.

Lemma unmount_stops_timer_witness :
  expirations
    (Timer.run (P := Iso.platform)
       ([Advance 1000; Fire 2] ++ Unmount :: [Advance 99000; Fire 1])
       (Timer.start (P := Iso.platform) "2024-01-01T10:00:00.000Z"
          1704103100000 1))
  = expirations
      (Timer.run (P := Iso.platform) [Advance 1000; Fire 2]
         (Timer.start (P := Iso.platform) "2024-01-01T10:00:00.000Z"
            1704103100000 1)).
Proof.
  exact (proj1 (proj2
    (unmount_stops_timer (P := Iso.platform) "2024-01-01T10:00:00.000Z"
       1704103200000 1704103100000 1 [Advance 1000; Fire 2]
       [Advance 99000; Fire 1] eq_refl eq_refl eq_refl eq_refl))).
Defined.

(** X5.  Running the effect again with a new deadline [D'] ahead by no
    more than [max_delay] milliseconds, before the old timer expired,
    replaces the schedule: the old timeout is cleared, the only timeout
    left is due at [D'], and the expiry callback is called at most once
    afterwards, not before [D']. *)
Theorem rerun_supersedes_schedule {P : Platform}
    endTime D now id0 sch1 endTime' D' sch2 :
  deadline endTime = Fin D -> now < D ->
  forallb runtime_event sch1 = true ->
  expirations (Timer.run sch1 (Timer.start endTime now id0)) = [] ->
  deadline endTime' = Fin D' ->
  clock (Timer.run sch1 (Timer.start endTime now id0)) < D' ->
  D' - clock (Timer.run sch1 (Timer.start endTime now id0)) <= max_delay ->
  forallb runtime_event sch2 = true ->
  let w := Timer.run (sch1 ++ Rerun endTime' :: sch2)
                     (Timer.start endTime now id0) in
  (forall x, In x (pending w) -> what x = Timeout -> due x = D')
  /\ (expirations w = []
      \/ exists t, expirations w = [t] /\ D' <= t).
Proof.
  intros HD Hlt H1 Hno HD' Hlt' Hfit H2 w. subst w.
  rewrite run_app, run_cons.
  set (w1 := Timer.run sch1 (Timer.start endTime now id0)) in *.
  destruct (reachable endTime D now id0 sch1 HD Hlt H1) as [Ha | Hs];
    fold w1 in Ha || fold w1 in Hs.
  - pose proof (rerun_armed endTime _ id0 w1 endTime' D' Ha HD' Hlt') as Ha'.
    rewrite due_at_deadline in Ha' by assumption.
    destruct (run_armed endTime' D' (next_id w1) sch2 _ Ha' H2)
      as [(next & ticks & Hp & _ & _ & Hl & _)
         | (t & ticks & Ht & _ & Hl & Hp & _)].
    + split.
      * intros x Hin Hk. rewrite Hp in Hin.
        destruct Hin as [<- | [<- | []]]; [reflexivity | discriminate].
      * left. now apply (expirations_ticks _ ticks).
    + split.
      * intros x Hin. rewrite Hp in Hin. destruct Hin.
      * right. exists t. split; [| assumption].
        now apply (expirations_spent _ t ticks).
  - destruct Hs as (t & ticks & _ & _ & Hl & _).
    rewrite (expirations_spent w1 t ticks Hl) in Hno. discriminate.
Qed.

Lemma rerun_supersedes_schedule_witness :
  expirations
    (Timer.run (P := Iso.platform)
       ([Advance 1000]
        ++ Rerun "2024-01-01T10:05:00.000Z"
        :: [Advance 99000; Fire 1; Fire 3])
       (Timer.start (P := Iso.platform) "2024-01-01T10:00:00.000Z"
          1704103100000 1)) = []
  \/ exists t,
       expirations
         (Timer.run (P := Iso.platform)
            ([Advance 1000]
             ++ Rerun "2024-01-01T10:05:00.000Z"
             :: [Advance 99000; Fire 1; Fire 3])
            (Timer.start (P := Iso.platform) "2024-01-01T10:00:00.000Z"
               1704103100000 1)) = [t]
       /\ 1704103500000 <= t.
Proof.
  exact (proj2
    (rerun_supersedes_schedule (P := Iso.platform)
       "2024-01-01T10:00:00.000Z" 1704103200000 1704103100000 1
       [Advance 1000] "2024-01-01T10:05:00.000Z" 1704103500000
       [Advance 99000; Fire 1; Fire 3]
       eq_refl eq_refl eq_refl eq_refl eq_refl eq_refl
       ltac:(vm_compute; discriminate) eq_refl)).
Defined.

(** X6.  Running the effect again once its deadline [D'] has been
    reached arms nothing and calls nothing.  So when the component is
    re-rendered at or after the deadline while the timeout is due but
    has not run yet, the timeout is cleared and the expiry callback is
    never called. *)
Theorem rerun_at_deadline_drops_expiry {P : Platform}
    endTime D now id0 sch1 endTime' D' sch2 :
  deadline endTime = Fin D -> now < D ->
  forallb runtime_event sch1 = true ->
  deadline endTime' = Fin D' ->
  D' <= clock (Timer.run sch1 (Timer.start endTime now id0)) ->
  forallb runtime_event sch2 = true ->
  let w1 := Timer.run sch1 (Timer.start endTime now id0) in
  let w := Timer.run (sch1 ++ Rerun endTime' :: sch2)
                     (Timer.start endTime now id0) in
  pending w = [] /\ expirations w = expirations w1.
Proof.
  intros HD Hlt H1 HD' Hle H2 w1 w. subst w. rewrite run_app, run_cons.
  fold w1 in Hle |- *.
  destruct (cleanup_reachable endTime _ id0 w1
              (reachable endTime D now id0 sch1 HD Hlt H1)) as [Hp Hl].
  destruct (cleanup_frame w1) as (_ & Hc & _).
  destruct (effect_past endTime' D' (cleanup w1) Hp HD')
    as [Hp' Hl']; [lia |].
  destruct (run_idle sch2 _ Hp' H2) as (Hp'' & Hl'' & _).
  simpl. split; [assumption |].
  unfold expirations. now rewrite Hl'', Hl', Hl.
Qed.

Lemma rerun_at_deadline_drops_expiry_witness :
  expirations
    (Timer.run (P := Iso.platform)
       ([Advance 100000]
        ++ Rerun "2024-01-01T10:00:00.000Z" :: [Fire 1; Advance 5000; Fire 1])
       (Timer.start (P := Iso.platform) "2024-01-01T10:00:00.000Z"
          1704103100000 1))
  = expirations
      (Timer.run (P := Iso.platform) [Advance 100000]
         (Timer.start (P := Iso.platform) "2024-01-01T10:00:00.000Z"
            1704103100000 1)).
Proof.
  exact (proj2
    (rerun_at_deadline_drops_expiry (P := Iso.platform)
       "2024-01-01T10:00:00.000Z" 1704103200000 1704103100000 1
       [Advance 100000] "2024-01-01T10:00:00.000Z" 1704103200000
       [Fire 1; Advance 5000; Fire 1]
       eq_refl eq_refl eq_refl eq_refl ltac:(simpl; lia) eq_refl)).
Defined.

(** X7.  A deadline that does not parse shows as the text [NaN:NaN] in
    the green colour of a timer with plenty of time. *)
Theorem unparseable_deadline_display {P : Platform} endTime now id0 :
  deadline endTime = NaN ->
  clock_text (Timer.start endTime now id0) = "NaN:NaN"
  /\ colorClass (Timer.start endTime now id0)
     = "bg-green-100 text-green-800".
Proof.
  intros HD. rewrite (start_invalid endTime now id0 HD). split; reflexivity.
Qed.

Lemma unparseable_deadline_display_witness :
  clock_text (Timer.start (P := Iso.platform) "next tuesday"
                1704103200000 1) = "NaN:NaN".
Proof.
  exact (proj1 (unparseable_deadline_display (P := Iso.platform)
                  "next tuesday" 1704103200000 1 eq_refl)).
Defined.

(* ================================================================== *)
(** * Further properties of the attempt controller *)
(* ================================================================== *)

Lemma error_message_nonempty (e : exn) (fallback : string) :
  fallback <> "" -> error_message e fallback <> "".
Proof.
  intros H. destruct e as [m | [d |]]; simpl; try assumption.
  destruct (String.eqb_spec d ""); assumption.
Qed.

(** X8.  Acquisition always comes to an end: [startQuiz] never throws,
    always lowers the loading flag, leaves the in-flight flag and the
    current question alone, and makes one, two or three requests: a
    start, then the quiz, then at most one more start.  It never
    submits and never opens a dialog. *)
Theorem startQuiz_always_settles {P : Platform} (e : env) (s : state) :
  let w := exec (startQuiz e) (from s) in
  fst (startQuiz e (from s)) = Normal tt
  /\ loading (st w) = false
  /\ submitting (st w) = submitting s
  /\ currentQuestion (st w) = currentQuestion s
  /\ (calls w = [PostStart]
      \/ calls w = [PostStart; GetQuiz]
      \/ calls w = [PostStart; GetQuiz; PostStart]).
Proof.
  destruct s as [qz aid et cq ans ld sub err]. run_handler.
  destruct (start1 e) as [? | [d1 |]];
    [cbn; now auto 8 | | cbn; now auto 8].
  destruct (truthy (attempt_id d1)); [| cbn; now auto 8].
  destruct (quiz_resp e) as [? | [q |]];
    [cbn; now auto 8 | | cbn; now auto 8].
  destruct (parse_start_time (start_time d1)) as [t |];
    [| cbn; now auto 8].
  destruct (num_leb _ _).
  - destruct (start2 e) as [? | [d2 |]];
      [cbn; now auto 8 | | cbn; now auto 8].
    destruct (parse_start_time (start_time d2)) as [t2 |];
      [| cbn; now auto 8].
    destruct (Date_new_toISOString _); cbn; now auto 8.
  - destruct (Date_new_toISOString _); cbn; now auto 8.
Qed.

(** X9.  After [startQuiz] the error message is empty exactly when the
    acquisition went through; when it did not, the message is not empty
    and the stored deadline and the answer set are the ones from
    before: a failed acquisition never sets a deadline. *)
Theorem startQuiz_error_iff_failure {P : Platform} (e : env) (s : state) :
  let w := exec (startQuiz e) (from s) in
  (error (st w) = "" <-> fst (startQuiz_try e (from s)) = Normal tt)
  /\ (error (st w) <> "" ->
      endTime (st w) = endTime s /\ answers (st w) = answers s).
Proof.
  assert (Hne : forall x,
             error_message x "Failed to start quiz. Please try again."
             <> "").
  { intros x. now apply error_message_nonempty. }
  destruct s as [qz aid et cq ans ld sub err]. run_handler.
  assert (Hthrow : forall x,
             (error_message x "Failed to start quiz. Please try again."
              = "" <-> Throw (A := unit) x = Normal tt)
             /\ (error_message x "Failed to start quiz. Please try again."
                 <> "" -> et = et /\ ans = ans)).
  { intros x. split; [split; [intros H; now apply Hne in H | discriminate]
                     | auto]. }
  destruct (start1 e) as [? | [d1 |]]; [apply Hthrow | | apply Hthrow].
  destruct (truthy (attempt_id d1)); [| apply Hthrow].
  destruct (quiz_resp e) as [? | [q |]]; [apply Hthrow | | apply Hthrow].
  destruct (parse_start_time (start_time d1)) as [t |]; [| apply Hthrow].
  destruct (num_leb _ _).
  - destruct (start2 e) as [? | [d2 |]]; [apply Hthrow | | apply Hthrow].
    destruct (parse_start_time (start_time d2)) as [t2 |]; [| apply Hthrow].
    destruct (Date_new_toISOString _); [| apply Hthrow].
    split; [tauto | intros H; now contradiction H].
  - destruct (Date_new_toISOString _); [| apply Hthrow].
    split; [tauto | intros H; now contradiction H].
Qed.

(** X10.  When the first start request is rejected, or its response
    carries no truthy attempt id, acquisition stops there: the quiz is
    never fetched, the state keeps its quiz, attempt id, deadline and
    answers, and the message shown is the server's [detail] when the
    rejection carries a non-empty one and the generic message
    otherwise. *)
Theorem first_start_failure_stops_acquisition {P : Platform}
    (e : env) (s : state) :
  match start1 e with
  | Resolved (Some d) => truthy (attempt_id d) = false
  | _ => True
  end ->
  startQuiz e (from s)
  = (Normal tt,
     {| st := {| quiz := quiz s; attemptId := attemptId s;
                 endTime := endTime s;
                 currentQuestion := currentQuestion s;
                 answers := answers s; loading := false;
                 submitting := submitting s;
                 error := match start1 e with
                          | Rejected (Some d) =>
                              if String.eqb d "" then
                                "Failed to start quiz. Please try again."
                              else d
                          | _ => "Failed to start quiz. Please try again."
                          end |};
        calls := [PostStart] |}).
Proof.
  intros H. destruct s as [qz aid et cq ans ld sub err]. run_handler.
  destruct (start1 e) as [[d |] | [d1 |]]; try reflexivity.
  rewrite H. reflexivity.
Qed.

Lemma first_start_failure_stops_acquisition_witness :
  error (st (exec (startQuiz (P := Iso.platform) Sample.refused_start)
                  (from initial_state)))
  = "Quiz not found".
Proof.
  unfold exec.
  rewrite (first_start_failure_stops_acquisition (P := Iso.platform)
             Sample.refused_start initial_state I).
  reflexivity.
Defined.

(** X11.  When the start time of the response is no date, or the time
    limit in force is not a number, the sum of the two is [NaN] and
    acquisition fails after the quiz was fetched: the generic message
    is shown, no deadline and no answer set are stored, no retry is
    made, while the attempt id and the quiz of the responses stay in
    the state. *)
Theorem invalid_deadline_fails_acquisition {P : Platform}
    (e : env) (s : state) d1 q p :
  start1 e = Resolved (Some d1) -> truthy (attempt_id d1) = true ->
  quiz_resp e = Resolved (Some q) ->
  parse_start_time (start_time d1) = Normal p ->
  num_add p (timeLimitMs_of (timeLimitMinutes_of d1 q)) = NaN ->
  startQuiz e (from s)
  = (Normal tt,
     {| st := {| quiz := Some q; attemptId := attempt_id d1;
                 endTime := endTime s;
                 currentQuestion := currentQuestion s;
                 answers := answers s; loading := false;
                 submitting := submitting s;
                 error := "Failed to start quiz. Please try again." |};
        calls := [PostStart; GetQuiz] |}).
Proof.
  intros H1 Ha Hq Hp Hnan.
  destruct s as [qz aid et cq ans ld sub err]. run_handler.
  rewrite H1, Ha, Hq, Hp, Hnan. reflexivity.
Qed.

Lemma invalid_deadline_fails_acquisition_witness :
  startQuiz (P := Iso.platform) Sample.bad_start_time (from initial_state)
  = (Normal tt,
     {| st := {| quiz := Some Sample.quiz4; attemptId := VNum (Fin 7);
                 endTime := None; currentQuestion := 0%nat;
                 answers := []; loading := false; submitting := false;
                 error := "Failed to start quiz. Please try again." |};
        calls := [PostStart; GetQuiz] |}).
Proof.
  exact (invalid_deadline_fails_acquisition (P := Iso.platform)
           Sample.bad_start_time initial_state _ Sample.quiz4 NaN
           eq_refl eq_refl eq_refl eq_refl eq_refl).
Defined.

Lemma initialAnswers_reads_null {P : Platform} (qs : list question) x :
  In x qs -> truthy (q_id x) = true ->
  ToPropertyKey (q_id x) <> "__proto__" ->
  obj_read (ToPropertyKey (q_id x)) (initialAnswers (Some qs)) = VNull.
Proof.
  intros Hin Ht Hk. unfold obj_read, initialAnswers. simpl.
  assert (Hhas : obj_has (ToPropertyKey (q_id x))
                   (own (fold_left add_question qs
                           {| own := []; inherits := true |})) = true).
  { apply fold_add_has; [assumption |]. right. exists x. auto. }
  unfold obj_has in Hhas.
  destruct (obj_get _ _) as [v |] eqn:E; [| discriminate].
  apply (fold_add_null qs {| own := []; inherits := true |}) in E;
    [assumption | discriminate].
Qed.

Lemma count_unanswered_all_null (qs : list question) (a : object) :
  (forall x, In x qs -> obj_read (ToPropertyKey (q_id x)) a = VNull) ->
  count_unanswered qs a = length qs.
Proof.
  induction qs as [| q qs IH]; intros H; simpl; [reflexivity |].
  rewrite (H q) by now left. f_equal. apply IH.
  intros x Hx. apply H. now right.
Qed.

(** X12.  Right after an acquisition nothing counts as answered, and on
    a quiz whose questions all have a truthy id, none of them the
    string [__proto__], a manual submit is blocked and reports every
    question of the quiz as remaining. *)
Theorem fresh_attempt_blocks_manual_submit {P : Platform}
    (s : state) q qs a dl confirmed :
  questions q = Some qs -> qs <> [] ->
  (forall x, In x qs -> truthy (q_id x) = true) ->
  (forall x, In x qs -> ToPropertyKey (q_id x) <> "__proto__") ->
  answered_count (answers (acquired s q a dl)) = 0%nat
  /\ handleSubmit_begin confirmed (from (acquired s q a dl))
     = (Normal false,
        {| st := {| quiz := Some q; attemptId := a;
                    endTime := Some (Date_toISOString dl);
                    currentQuestion := currentQuestion s;
                    answers := initialAnswers (Some qs);
                    loading := false; submitting := submitting s;
                    error :=
                      "Please answer all questions before submitting. "
                      ++ NilZero.string_of_uint (Nat.to_uint (length qs))
                      ++ " question(s) remaining." |};
           calls := [] |}).
Proof.
  intros Hqs Hne Hall Hproto. split.
  - unfold acquired, answered_count. cbn [answers]. rewrite Hqs.
    assert (Hnd : NoDup (Object_keys (initialAnswers (Some qs)))).
    { apply fold_add_NoDup. constructor. }
    assert (Hnull : forall k v,
               In (k, v) (initialAnswers (Some qs)) -> v = VNull).
    { intros k v Hin. apply (In_obj_get k v _ Hnd) in Hin.
      revert Hin. apply fold_add_null. discriminate. }
    induction (initialAnswers (Some qs)) as [| [k v] l IH];
      [reflexivity |].
    simpl. rewrite (Hnull k v) by now left. simpl. apply IH.
    + now inversion Hnd.
    + intros k' v' Hin. apply (Hnull k'). now right.
  - assert (Hc : count_unanswered qs (initialAnswers (Some qs))
                 = length qs).
    { apply count_unanswered_all_null. intros x Hx.
      apply initialAnswers_reads_null; auto. }
    assert (Hlt : (0 <? length (unansweredQuestions qs
                                  (initialAnswers (Some qs))))%nat = true).
    { rewrite length_unansweredQuestions, Hc. apply Nat.ltb_lt.
      destruct qs; [contradiction | simpl; lia]. }
    rewrite <- Hc, <- length_unansweredQuestions.
    destruct s as [qz aid et cq ans ld sub err]. unfold acquired.
    run_handler. rewrite Hqs, Hlt. reflexivity.
Qed.

Lemma fresh_attempt_blocks_manual_submit_witness :
  error (st (exec (handleSubmit_begin true)
                  (from (acquired (P := Iso.platform) initial_state
                           Sample.quiz4 (VNum (Fin 7))
                           (Sample.t1000 + 900000)))))
  = "Please answer all questions before submitting. 4 question(s) remaining.".
Proof.
  unfold exec.
  rewrite (proj2 (fresh_attempt_blocks_manual_submit (P := Iso.platform)
                    initial_state Sample.quiz4 _ (VNum (Fin 7))
                    (Sample.t1000 + 900000) true eq_refl
                    ltac:(discriminate)
                    ltac:(simpl; intros x [<- | [<- | [<- | [<- | []]]]];
                          reflexivity)
                    ltac:(simpl; intros x [<- | [<- | [<- | [<- | []]]]];
                          discriminate))).
  reflexivity.
Defined.

(** ** Answering *)

(** X13.  [handleAnswer] records the choice under the question's key:
    reading the key back gives the chosen index, every other entry is
    as before, the key set only gains that key and keeps its keys
    distinct, no other state cell changes and nothing is sent. *)
Theorem handleAnswer_records_choice (w : QuizRunner.world)
    (questionId : value) (optionIndex : Z) :
  let k := ToPropertyKey questionId in
  let w' := exec (handleAnswer questionId optionIndex) w in
  obj_read k (answers (st w')) = VNum (Fin optionIndex)
  /\ (forall k', k' <> k ->
        obj_get k' (answers (st w')) = obj_get k' (answers (st w)))
  /\ (forall k', In k' (Object_keys (answers (st w'))) <->
                 k' = k \/ In k' (Object_keys (answers (st w))))
  /\ (NoDup (Object_keys (answers (st w))) ->
      NoDup (Object_keys (answers (st w'))))
  /\ calls w' = calls w
  /\ st w' = {| quiz := quiz (st w); attemptId := attemptId (st w);
                endTime := endTime (st w);
                currentQuestion := currentQuestion (st w);
                answers := answers (st w');
                loading := loading (st w);
                submitting := submitting (st w);
                error := error (st w) |}.
Proof.
  intros k w'. destruct w as [[qz aid et cq ans ld sub err] cs].
  subst w'. cbn.
  split; [unfold obj_read; now rewrite obj_get_set_same |].
  split; [intros k' Hne; now apply obj_get_set_other |].
  split; [| split; [apply NoDup_keys_set | split; reflexivity]].
  intros k'. rewrite <- !obj_has_keys. apply obj_has_set.
Qed.

Lemma unanswered_after_set (qs : list question) (a : object)
    (k : string) (i : Z) :
  unansweredQuestions qs (obj_set k (VNum (Fin i)) a)
  = filter (fun q => negb (String.eqb (ToPropertyKey (q_id q)) k))
           (unansweredQuestions qs a).
Proof.
  unfold unansweredQuestions. induction qs as [| q qs IH]; [reflexivity |].
  cbn [filter]. rewrite IH. unfold obj_read at 1.
  destruct (String.eqb (ToPropertyKey (q_id q)) k) eqn:E.
  - apply String.eqb_eq in E as Ek. rewrite <- Ek.
    rewrite obj_get_set_same. cbn [is_null].
    destruct (is_null _); [| reflexivity].
    cbn [filter]. now rewrite String.eqb_refl.
  - apply String.eqb_neq in E as Hne.
    rewrite obj_get_set_other by assumption. fold (obj_read (ToPropertyKey (q_id q)) a).
    destruct (is_null _); [| reflexivity].
    cbn [filter]. now rewrite E.
Qed.

(** X14.  Answering a question removes from the unanswered list exactly
    the questions filed under its key and no other: the list after
    [handleAnswer] is the list before without them. *)
Theorem handleAnswer_clears_unanswered (w : QuizRunner.world)
    (qs : list question) (questionId : value) (optionIndex : Z) :
  unansweredQuestions qs
    (answers (st (exec (handleAnswer questionId optionIndex) w)))
  = filter (fun q => negb (String.eqb (ToPropertyKey (q_id q))
                                      (ToPropertyKey questionId)))
           (unansweredQuestions qs (answers (st w))).
Proof.
  destruct w as [[qz aid et cq ans ld sub err] cs]. cbn.
  apply unanswered_after_set.
Qed.

Lemma unanswered_after_choices (qs : list question)
    (choices : list (value * Z)) :
  forall w,
    (forall x, In x qs ->
       is_null (obj_read (ToPropertyKey (q_id x)) (answers (st w))) = false
       \/ exists i, In (q_id x, i) choices) ->
    unansweredQuestions qs
      (answers (st (fold_left
                      (fun w c => exec (handleAnswer (fst c) (snd c)) w)
                      choices w))) = [].
Proof.
  induction choices as [| [id i] choices IH]; intros w H.
  - simpl. unfold unansweredQuestions.
    induction qs as [| q qs IHq]; [reflexivity |].
    cbn [filter]. destruct (H q (or_introl eq_refl)) as [E | (j & [])].
    rewrite E. apply IHq. intros x Hx. apply H. now right.
  - cbn [fold_left]. apply IH. intros x Hx.
    destruct w as [[qz aid et cq ans ld sub err] cs]. cbn in H |- *.
    unfold obj_read.
    destruct (String.eqb_spec (ToPropertyKey (q_id x)) (ToPropertyKey id))
      as [E | Hne].
    + left. rewrite E, obj_get_set_same. reflexivity.
    + rewrite obj_get_set_other by assumption.
      destruct (H x Hx) as [Hnn | (j & [Heq | Hin])].
      * now left.
      * injection Heq as Hid _. exfalso. apply Hne. now rewrite Hid.
      * right. now exists j.
Qed.

(** X15.  An answer is never taken back: once every question of a
    list has been answered, in any order, with repetitions and with
    other answers in between, no question of the list is unanswered,
    so the manual submit is no longer blocked by it. *)
Theorem answering_every_question_unblocks (w : QuizRunner.world)
    (qs : list question) (choices : list (value * Z)) :
  (forall x, In x qs -> exists i, In (q_id x, i) choices) ->
  unansweredQuestions qs
    (answers (st (fold_left
                    (fun w c => exec (handleAnswer (fst c) (snd c)) w)
                    choices w))) = [].
Proof.
  intros H. apply unanswered_after_choices. intros x Hx. right. auto.
Qed.

Lemma answering_every_question_unblocks_witness :
  unansweredQuestions
    [Sample.ask (VNum (Fin 1)); Sample.ask (VNum (Fin 2))]
    (answers (st (fold_left
                    (fun w c => exec (handleAnswer (fst c) (snd c)) w)
                    [(VNum (Fin 2), 0); (VNum (Fin 1), 2);
                     (VNum (Fin 2), 1)]
                    (from (Sample.running Sample.none_of_four))))) = [].
Proof.
  apply answering_every_question_unblocks.
  intros x [<- | [<- | []]]; [exists 2 | exists 0]; simpl; auto.
Defined.

(** ** Manual submission *)

(** X16.  With every question answered a manual submit asks for
    confirmation first.  Declined, it changes nothing and sends
    nothing.  Confirmed, it raises the in-flight flag, clears the error
    and posts the whole answer set for the current attempt, once. *)
Theorem manual_submit_needs_confirmation (s : state) q qs :
  quiz s = Some q -> questions q = Some qs ->
  unansweredQuestions qs (answers s) = [] ->
  handleSubmit_begin false (from s)
  = (Normal false, {| st := s; calls := [Confirm] |})
  /\ handleSubmit_begin true (from s)
     = (Normal true,
        {| st := {| quiz := quiz s; attemptId := attemptId s;
                    endTime := endTime s;
                    currentQuestion := currentQuestion s;
                    answers := answers s; loading := loading s;
                    submitting := true; error := "" |};
           calls := [Confirm;
                     PostSubmit (attemptId s) (format_all (answers s))] |}).
Proof.
  intros Hq Hqs Hu. destruct s as [qz aid et cq ans ld sub err].
  simpl in *. subst qz. split; run_handler; rewrite Hqs, Hu; reflexivity.
Qed.

Lemma manual_submit_needs_confirmation_witness :
  calls (exec (handleSubmit_begin false)
              (from (Sample.running Sample.all_four))) = [Confirm].
Proof.
  unfold exec.
  rewrite (proj1 (manual_submit_needs_confirmation
                    (Sample.running Sample.all_four) Sample.quiz4 _
                    eq_refl eq_refl eq_refl)).
  reflexivity.
Defined.

Lemma format_all_id (a : object) : format_all a = a.
Proof.
  unfold format_all, Object_entries.
  induction a as [| [k v] a IH]; simpl; congruence.
Qed.

(** X17.  When the keys of the answer set are distinct and all belong
    to questions of the quiz, a manual submit that passes the check
    sends no null answer: its payload is the answer set itself, the
    payload a submit on expiry would send, and it has as many pairs as
    the counter of answered questions shows. *)
Theorem manual_payload_is_timeout_payload (qs : list question)
    (a : object) :
  NoDup (Object_keys a) ->
  (forall k, In k (Object_keys a) ->
     exists x, In x qs /\ ToPropertyKey (q_id x) = k) ->
  unansweredQuestions qs a = [] ->
  format_all a = a
  /\ format_answered a = a
  /\ length (format_answered a) = answered_count a
  /\ (forall k v, In (k, v) (format_all a) -> v <> VNull).
Proof.
  intros Hnd Hkeys Hu.
  assert (Hnn : forall k v, In (k, v) a -> is_null v = false).
  { intros k v Hin.
    destruct (Hkeys k) as (x & Hx & Hk).
    { change k with (fst (k, v)). now apply in_map. }
    destruct (is_null v) eqn:N; [| reflexivity]. exfalso.
    assert (Hf : In x (unansweredQuestions qs a)).
    { unfold unansweredQuestions. apply filter_In. split; [assumption |].
      unfold obj_read. rewrite Hk, (In_obj_get k v a Hnd Hin).
      assumption. }
    rewrite Hu in Hf. destruct Hf. }
  assert (Hfa : format_answered a = a /\ answered_count a = length a).
  { unfold format_answered, answered_count, Object_entries.
    clear Hnd Hkeys Hu.
    induction a as [| [k v] a IH]; [now split |].
    simpl. rewrite (Hnn k v) by now left. simpl.
    destruct IH as [I1 I2]; [intros k' v' H; apply (Hnn k'); now right |].
    split; congruence. }
  destruct Hfa as [Hf Hc].
  split; [apply format_all_id |]. split; [assumption |].
  split; [now rewrite Hf, Hc |].
  intros k v Hin. rewrite format_all_id in Hin.
  apply Hnn in Hin. now destruct v.
Qed.

Lemma manual_payload_is_timeout_payload_witness :
  format_answered Sample.all_four = Sample.all_four.
Proof.
  refine (proj1 (proj2 (manual_payload_is_timeout_payload
    [Sample.ask (VNum (Fin 1)); Sample.ask (VNum (Fin 2));
     Sample.ask (VNum (Fin 3)); Sample.ask (VNum (Fin 4))]
    Sample.all_four _ _ eq_refl))).
  - repeat constructor; simpl; intuition discriminate.
  - simpl. intros k [<- | [<- | [<- | [<- | []]]]];
      [exists (Sample.ask (VNum (Fin 1)))
      | exists (Sample.ask (VNum (Fin 2)))
      | exists (Sample.ask (VNum (Fin 3)))
      | exists (Sample.ask (VNum (Fin 4)))];
      (split; [simpl; auto | reflexivity]).
Defined.

(** ** Settlement of the submit request *)

(** X18.  A submit on expiry whose request fails reports the failure,
    lowers the in-flight flag and can be made again: the next expiry
    call posts a second time.  One whose request succeeds stores the
    result, navigates to it and leaves the flag raised, so that a
    further expiry call does nothing.  A failed manual submit lowers
    the flag as well. *)
Theorem failed_submit_can_be_retried (s : state)
    (detail : option string) (d : result_data) :
  submitting s = false ->
  let sent := exec handleTimeUp_begin (from s) in
  let failed := exec (handleTimeUp_settle (Rejected detail)) sent in
  let done := exec (handleTimeUp_settle (Resolved (Some d))) sent in
  submitting (st sent) = true
  /\ submitting (st failed) = false
  /\ error (st failed)
     = error_message (AxiosError detail) "Failed to auto-submit quiz."
  /\ submit_calls (exec handleTimeUp_begin failed)
     = [PostSubmit (attemptId s) (format_answered (answers s));
        PostSubmit (attemptId s) (format_answered (answers s))]
  /\ submitting (st done) = true
  /\ calls done
     = [Alert; PostSubmit (attemptId s) (format_answered (answers s));
        StoreResult; Navigate (result_id d)]
  /\ exec handleTimeUp_begin done = done
  /\ submitting
       (st (exec (handleSubmit_settle (Rejected detail)) sent)) = false.
Proof.
  intros Hs. destruct s as [qz aid et cq ans ld sub err].
  simpl in Hs. subst sub. repeat split.
Qed.

Lemma failed_submit_can_be_retried_witness :
  length
    (submit_calls
       (exec handleTimeUp_begin
          (exec (handleTimeUp_settle (Rejected (Some "Server error")))
             (exec handleTimeUp_begin
                (from (Sample.running Sample.three_of_four))))))
  = 2%nat.
Proof.
  rewrite (proj1 (proj2 (proj2 (proj2
    (failed_submit_can_be_retried (Sample.running Sample.three_of_four)
       (Some "Server error") {| result_id := VNum (Fin 1) |} eq_refl))))).
  reflexivity.
Defined.

(** ** Moving between questions *)

Lemma shown_questions_frame (s : state) (n : nat) :
  shown_questions
    {| quiz := quiz s; attemptId := attemptId s; endTime := endTime s;
       currentQuestion := n; answers := answers s; loading := loading s;
       submitting := submitting s; error := error s |}
  = shown_questions s.
Proof. reflexivity. Qed.

Lemma handle_click_in_range (c : click) (w : QuizRunner.world) qs :
  shown_questions (st w) = Some qs ->
  (currentQuestion (st w) < length qs)%nat ->
  let w' := exec (handle_click c) w in
  shown_questions (st w') = Some qs
  /\ (currentQuestion (st w') < length qs)%nat
  /\ calls w' = calls w
  /\ answers (st w') = answers (st w)
  /\ submitting (st w') = submitting (st w)
  /\ endTime (st w') = endTime (st w).
Proof.
  intros Hq Hlt. destruct w as [s cs]. cbn [st calls] in *.
  unfold exec, handle_click, bind, get, ret. cbn [st snd]. rewrite Hq.
  destruct c as [| | i].
  - destruct (Nat.eqb (currentQuestion s) 0); cbn; [now auto |].
    rewrite shown_questions_frame. repeat split; auto. lia.
  - destruct (Z.ltb_spec (Z.of_nat (currentQuestion s))
                         (Z.of_nat (length qs) - 1)); cbn; [| now auto].
    rewrite shown_questions_frame. repeat split; auto. lia.
  - destruct (Nat.ltb_spec i (length qs)); cbn; [| now auto].
    rewrite shown_questions_frame. repeat split; auto.
Qed.

Lemma clicks_in_range qs (clicks : list click) :
  forall w : QuizRunner.world,
    shown_questions (st w) = Some qs ->
    (currentQuestion (st w) < length qs)%nat ->
    let w' := fold_left (fun w c => exec (handle_click c) w) clicks w in
    shown_questions (st w') = Some qs
    /\ (currentQuestion (st w') < length qs)%nat
    /\ calls w' = calls w
    /\ answers (st w') = answers (st w)
    /\ submitting (st w') = submitting (st w)
    /\ endTime (st w') = endTime (st w).
Proof.
  induction clicks as [| c clicks IH]; intros w Hq Hlt.
  - simpl. repeat split; assumption.
  - cbn [fold_left].
    destruct (handle_click_in_range c w qs Hq Hlt)
      as (Hq1 & Hlt1 & Hc1 & Ha1 & Hs1 & He1).
    destruct (IH _ Hq1 Hlt1) as (Hq2 & Hlt2 & Hc2 & Ha2 & Hs2 & He2).
    cbv zeta. repeat split; congruence.
Qed.

(** X19.  Whatever sequence of "Previous", "Next" and dot clicks the
    quiz view receives, the current question stays a question of the
    quiz, so the view always has a question to show; the clicks touch
    neither the answers nor the deadline nor the in-flight flag and
    send nothing. *)
Theorem navigation_stays_in_range (s : state) qs (clicks : list click) :
  shown_questions s = Some qs ->
  (currentQuestion s < length qs)%nat ->
  let w := fold_left (fun w c => exec (handle_click c) w) clicks (from s) in
  (currentQuestion (st w) < length qs)%nat
  /\ (exists q, currentQ (st w) = Some q)
  /\ calls w = []
  /\ answers (st w) = answers s
  /\ submitting (st w) = submitting s
  /\ endTime (st w) = endTime s.
Proof.
  intros Hq Hlt w.
  destruct (clicks_in_range qs clicks (from s) Hq Hlt)
    as (Hq' & Hlt' & Hc & Ha & Hs & He).
  fold w in Hq', Hlt', Hc, Ha, Hs, He.
  split; [assumption |]. split; [| auto].
  unfold currentQ. rewrite Hq'.
  destruct (nth_error qs (currentQuestion (st w))) as [x |] eqn:E;
    [now exists x |].
  apply nth_error_None in E. lia.
Qed.

Lemma navigation_stays_in_range_witness :
  (currentQuestion
     (st (fold_left (fun w c => exec (handle_click c) w)
            [Next; Dot 9; Previous; Previous; Dot 0; Previous; Next]
            (from (Sample.running Sample.three_of_four)))) < 4)%nat.
Proof.
  exact (proj1 (navigation_stays_in_range
                  (Sample.running Sample.three_of_four) _
                  [Next; Dot 9; Previous; Previous; Dot 0; Previous; Next]
                  eq_refl ltac:(simpl; lia))).
Defined.

(* ================================================================== *)
(** * The session: utils/auth and the interceptors of utils/api *)
(* ================================================================== *)

Section StorageFacts.
Import Auth.

Lemma getItem_removeItem_same (k : string) (l : storage) :
  getItem k (removeItem k l) = None.
Proof.
  unfold removeItem. induction l as [| [k' v] l IH]; simpl; [reflexivity |].
  destruct (String.eqb k k') eqn:E; simpl; [assumption |].
  now rewrite E.
Qed.

Lemma getItem_removeItem_other (k k' : string) (l : storage) :
  k' <> k -> getItem k' (removeItem k l) = getItem k' l.
Proof.
  intros Hne. unfold removeItem.
  induction l as [| [k0 v] l IH]; simpl; [reflexivity |].
  destruct (String.eqb_spec k k0) as [<- | Hk]; simpl.
  - apply String.eqb_neq in Hne. now rewrite Hne.
  - now rewrite IH.
Qed.

Lemma getItem_setItem_same (k v : string) (l : storage) :
  getItem k (setItem k v l) = Some v.
Proof. unfold setItem. simpl. now rewrite String.eqb_refl. Qed.

Lemma getItem_setItem_other (k k' v : string) (l : storage) :
  k' <> k -> getItem k' (setItem k v l) = getItem k' l.
Proof.
  intros Hne. unfold setItem. simpl.
  apply String.eqb_neq in Hne as E. rewrite E.
  now apply getItem_removeItem_other.
Qed.

Lemma removeItem_idempotent (k : string) (l : storage) :
  removeItem k (removeItem k l) = removeItem k l.
Proof.
  unfold removeItem. induction l as [| [k' v] l IH]; simpl; [reflexivity |].
  destruct (String.eqb k k') eqn:E; simpl; [assumption |].
  rewrite E. simpl. now rewrite IH.
Qed.

Lemma removeItem_comm (k k' : string) (l : storage) :
  removeItem k (removeItem k' l) = removeItem k' (removeItem k l).
Proof.
  unfold removeItem. induction l as [| [k0 v] l IH]; simpl; [reflexivity |].
  destruct (String.eqb k' k0) eqn:E1, (String.eqb k k0) eqn:E2; simpl;
    rewrite ?E1, ?E2; simpl; congruence.
Qed.

End StorageFacts.

(** X20.  After [setAuth(token, user)] the token reads back as stored,
    the session counts as authenticated exactly when the token is not
    the empty string, the user reads back whenever its JSON text is not
    empty and parses to it, and no other key of the storage changes. *)
Theorem setAuth_round_trip {U : Type} {J : Auth.Json U}
    (token : string) (user : U) (l : Auth.storage) :
  Auth.getToken (Auth.setAuth token user l) = Some token
  /\ Auth.isAuthenticated (Auth.setAuth token user l)
     = negb (String.eqb token "")
  /\ (Auth.JSON_stringify user <> "" ->
      Auth.JSON_parse (Auth.JSON_stringify user) = Normal (Some user) ->
      Auth.getCurrentUser (Auth.setAuth token user l) = Some user)
  /\ (forall k, k <> "token" -> k <> "user" ->
        Auth.getItem k (Auth.setAuth token user l) = Auth.getItem k l).
Proof.
  assert (Ht : Auth.getToken (Auth.setAuth token user l) = Some token).
  { unfold Auth.getToken, Auth.setAuth.
    rewrite getItem_setItem_other by discriminate.
    apply getItem_setItem_same. }
  split; [assumption |]. split; [| split].
  - unfold Auth.isAuthenticated. now rewrite Ht.
  - intros Hne Hparse. unfold Auth.getCurrentUser, Auth.setAuth.
    rewrite getItem_setItem_same. apply String.eqb_neq in Hne.
    now rewrite Hne, Hparse.
  - intros k H1 H2. unfold Auth.setAuth.
    now rewrite !getItem_setItem_other.
Qed.

Lemma setAuth_round_trip_witness :
  Auth.getCurrentUser (J := Sample.json_integer)
    (Auth.setAuth (J := Sample.json_integer) "abc" 42
       [("theme", "dark")])
  = Some 42.
Proof.
  refine (proj1 (proj2 (proj2
    (setAuth_round_trip (J := Sample.json_integer) "abc" 42
       [("theme", "dark")]))) _ eq_refl).
  discriminate.
Defined.

(** X21.  After [clearAuth] there is no token and no user, the session
    does not count as authenticated, every other key of the storage is
    untouched, and clearing again changes nothing. *)
Theorem clearAuth_logs_out {U : Type} {J : Auth.Json U}
    (l : Auth.storage) :
  Auth.getToken (Auth.clearAuth l) = None
  /\ Auth.getCurrentUser (U := U) (Auth.clearAuth l) = None
  /\ Auth.isAuthenticated (Auth.clearAuth l) = false
  /\ (forall k, k <> "token" -> k <> "user" ->
        Auth.getItem k (Auth.clearAuth l) = Auth.getItem k l)
  /\ Auth.clearAuth (Auth.clearAuth l) = Auth.clearAuth l.
Proof.
  assert (Ht : Auth.getToken (Auth.clearAuth l) = None).
  { unfold Auth.getToken, Auth.clearAuth.
    rewrite getItem_removeItem_other by discriminate.
    apply getItem_removeItem_same. }
  split; [assumption |]. split; [| split; [| split]].
  - unfold Auth.getCurrentUser, Auth.clearAuth.
    now rewrite getItem_removeItem_same.
  - unfold Auth.isAuthenticated. now rewrite Ht.
  - intros k H1 H2. unfold Auth.clearAuth.
    now rewrite !getItem_removeItem_other.
  - unfold Auth.clearAuth.
    rewrite (removeItem_comm "token" "user" (Auth.removeItem "token" l)).
    now rewrite !removeItem_idempotent.
Qed.

(** X22.  A request leaves with an [Authorization] header exactly when
    a non-empty token is stored, and the header is then [Bearer]
    followed by that token; the other headers of the request are never
    changed, and without a token the request is left as it is. *)
Theorem request_carries_stored_token (b : Api.browser) (c : Api.config) :
  (forall t, Auth.getToken (Api.localStorage b) = Some t -> t <> "" ->
     obj_read "Authorization" (Api.headers (Api.on_request b c))
     = VStr ("Bearer " ++ t))
  /\ (Auth.isAuthenticated (Api.localStorage b) = false ->
      Api.on_request b c = c)
  /\ (forall k, k <> "Authorization" ->
        obj_get k (Api.headers (Api.on_request b c))
        = obj_get k (Api.headers c)).
Proof.
  unfold Api.on_request, Auth.isAuthenticated, Auth.getToken.
  destruct (Auth.getItem "token" (Api.localStorage b)) as [t |].
  - destruct (String.eqb_spec t "") as [-> | Hne]; cbn [negb].
    + split; [intros t' [= <-] H; now contradiction H |].
      split; [reflexivity | reflexivity].
    + split; [| split].
      * intros t' [= <-] _. cbn [Api.headers]. unfold obj_read.
        now rewrite obj_get_set_same.
      * discriminate.
      * intros k Hk. cbn [Api.headers]. now apply obj_get_set_other.
  - split; [discriminate |]. split; reflexivity.
Qed.

Lemma request_carries_stored_token_witness :
  obj_read "Authorization"
    (Api.headers
       (Api.on_request
          {| Api.localStorage :=
               Auth.setAuth (J := Sample.json_integer) "abc" 42 [];
             Api.location_href := "/quiz/3" |}
          Api.base_config))
  = VStr "Bearer abc".
Proof.
  refine (proj1
    (request_carries_stored_token
       {| Api.localStorage :=
            Auth.setAuth (J := Sample.json_integer) "abc" 42 [];
          Api.location_href := "/quiz/3" |}
       Api.base_config) "abc" eq_refl _).
  discriminate.
Defined.

(** X23.  A failed request is always handed on to the caller.  When its
    response has status 401, the token and the user are removed from
    the storage first and the browser is sent to [/login], so that the
    next request carries no [Authorization] header; any other failure
    leaves the browser as it was. *)
Theorem unauthorized_response_ends_session (f : Api.failure)
    (b : Api.browser) (c : Api.config) :
  snd (Api.on_response_error f b) = f
  /\ (Api.response_status f = Some 401 ->
      let b' := fst (Api.on_response_error f b) in
      Api.location_href b' = "/login"
      /\ Auth.getItem "token" (Api.localStorage b') = None
      /\ Auth.getItem "user" (Api.localStorage b') = None
      /\ Auth.isAuthenticated (Api.localStorage b') = false
      /\ Api.on_request b' c = c
      /\ (forall k, k <> "token" -> k <> "user" ->
            Auth.getItem k (Api.localStorage b')
            = Auth.getItem k (Api.localStorage b)))
  /\ (Api.response_status f <> Some 401 ->
      fst (Api.on_response_error f b) = b).
Proof.
  unfold Api.on_response_error.
  destruct (Api.response_status f) as [status |].
  - destruct (Z.eqb_spec status 401) as [-> | Hne].
    + split; [reflexivity |]. split; [| intros H; now contradiction H].
      intros _. cbn.
      assert (Ht : Auth.getItem "token"
                     (Auth.removeItem "user"
                        (Auth.removeItem "token" (Api.localStorage b)))
                   = None).
      { rewrite getItem_removeItem_other by discriminate.
        apply getItem_removeItem_same. }
      split; [reflexivity |]. split; [assumption |].
      split; [apply getItem_removeItem_same |].
      split; [unfold Auth.isAuthenticated, Auth.getToken; now rewrite Ht |].
      split; [unfold Api.on_request; cbn; now rewrite Ht |].
      intros k H1 H2. now rewrite !getItem_removeItem_other.
    + split; [reflexivity |]. split; [| reflexivity].
      intros [= H]. now contradiction Hne.
  - split; [reflexivity |]. split; [discriminate | reflexivity].
Qed.

(* ================================================================== *)
(** * Who reaches the quiz: ProtectedRoute and the routes of App *)
(* ================================================================== *)

Section RouteFacts.
Import Routes.

Lemma strict_eqb_string (v : value) (s : string) :
  strict_eqb v (VStr s) = true <-> v = VStr s.
Proof.
  destruct v as [| | b | [z |] | s']; simpl;
    try (split; [discriminate | discriminate]).
  rewrite String.eqb_eq. split; [now intros -> | now intros [= ->]].
Qed.

Lemma includes_single (s : string) (v : value) :
  includes [VStr s] v = true <-> v = VStr s.
Proof.
  unfold includes. simpl. rewrite orb_false_r.
  destruct v as [| | b | [z |] | s']; simpl;
    try (split; [discriminate | discriminate]).
  rewrite String.eqb_eq. split; [now intros -> | now intros [= ->]].
Qed.

Lemma home_not_login (u : user) : home u <> "/login".
Proof. unfold home. destruct (strict_eqb _ _); discriminate. Qed.

End RouteFacts.

(** X24.  A protected route renders its page exactly for a logged-in
    user whose role is among the allowed ones.  Without a user it
    redirects to [/login]; a logged-in user with another role is sent
    to the home of the role, [/admin] for an admin and [/dashboard] for
    everybody else, never to [/login]. *)
Theorem ProtectedRoute_renders_iff_permitted {page : Type}
    (u : option Routes.user) (roles : list value) (children : page) :
  (Routes.ProtectedRoute u (Some roles) children = Routes.Render children
   <-> exists x, u = Some x /\ Routes.includes roles (Routes.role x) = true)
  /\ (u = None ->
      forall r, Routes.ProtectedRoute u r children
                = Routes.Redirect "/login")
  /\ (forall x to,
        u = Some x ->
        Routes.ProtectedRoute u (Some roles) children = Routes.Redirect to ->
        Routes.includes roles (Routes.role x) = false
        /\ to = Routes.home x /\ to <> "/login").
Proof.
  split; [| split].
  - destruct u as [x |]; simpl.
    + destruct (Routes.includes roles (Routes.role x)) eqn:E; simpl.
      * split; [intros _; now exists x | reflexivity].
      * split; [discriminate | intros (y & [= <-] & H); congruence].
    + split; [discriminate | intros (y & H & _); discriminate].
  - intros -> r. reflexivity.
  - intros x to -> H. simpl in H.
    destruct (Routes.includes roles (Routes.role x)); simpl in H;
      [discriminate |].
    injection H as <-. split; [reflexivity |].
    split; [reflexivity | apply home_not_login].
Qed.

(** X25.  Following the redirects of App: a visitor who is not logged
    in ends on the login or the signup page from every path; a student
    ends on a student page and an admin on an admin page after at most
    one redirect; a user with any other role is redirected to
    [/dashboard] for ever and is never shown a page.  The quiz runner
    is rendered only at its own path and only for a student. *)
Theorem App_routes_by_role (u : Routes.user) (p : Routes.path) :
  (Routes.settle 1 None p = Some Routes.Login
   \/ Routes.settle 1 None p = Some Routes.Signup)
  /\ (Routes.role u = VStr "student" ->
      exists pg, Routes.settle 1 (Some u) p = Some pg
                 /\ In pg [Routes.Dashboard; Routes.QuizRunner;
                           Routes.Results])
  /\ (Routes.role u = VStr "admin" ->
      exists pg, Routes.settle 1 (Some u) p = Some pg
                 /\ In pg [Routes.AdminDashboard; Routes.CreateQuiz;
                           Routes.EditQuiz; Routes.QuizResults])
  /\ (Routes.role u <> VStr "student" -> Routes.role u <> VStr "admin" ->
      forall n, Routes.settle n (Some u) p = None)
  /\ (forall v, Routes.App v p = Routes.Render Routes.QuizRunner ->
        p = Routes.P_quiz
        /\ exists x, v = Some x /\ Routes.role x = VStr "student").
Proof.
  split; [| split; [| split; [| split]]].
  - destruct p; simpl; auto.
  - destruct u as [r]. simpl. intros ->.
    destruct p; cbn; eexists; (split; [reflexivity |]); simpl; tauto.
  - destruct u as [r]. simpl. intros ->.
    destruct p; cbn; eexists; (split; [reflexivity |]); simpl; tauto.
  - intros Hs Ha.
    assert (Es : Routes.includes [VStr "student"] (Routes.role u) = false).
    { apply not_true_is_false. intros E.
      apply includes_single in E. contradiction. }
    assert (Ea : Routes.includes [VStr "admin"] (Routes.role u) = false).
    { apply not_true_is_false. intros E.
      apply includes_single in E. contradiction. }
    assert (Eh : Routes.strict_eqb (Routes.role u) (VStr "admin") = false).
    { apply not_true_is_false. intros E.
      apply strict_eqb_string in E. contradiction. }
    assert (HA : forall p', Routes.App (Some u) p'
                            = Routes.Redirect "/dashboard").
    { intros p'. destruct p';
        cbn [Routes.App Routes.ProtectedRoute]; unfold Routes.home;
        rewrite ?Es, ?Ea; cbn [negb]; rewrite ?Eh; reflexivity. }
    assert (Hd : forall n p', Routes.settle n (Some u) p' = None).
    { induction n as [| n IH]; intros p'; cbn [Routes.settle];
        rewrite HA; [reflexivity |].
      change (Routes.path_of "/dashboard") with (Some Routes.P_dashboard).
      apply IH. }
    intros n. apply Hd.
  - intros v H. unfold Routes.App, Routes.ProtectedRoute in H.
    destruct p; destruct v as [x |]; try discriminate H;
      try (destruct (negb (Routes.includes _ (Routes.role x)));
           discriminate H).
    split; [reflexivity |].
    destruct (Routes.includes _ (Routes.role x)) eqn:E;
      [| discriminate H].
    exists x. split; [reflexivity |]. now apply includes_single.
Qed.
